(** * FiveBar: a momentum strategy replayed over OHLCV bars

    Shallow embedding of [FiveBar.py]: the data fetch [ohlcv], the
    analyzer [EquityCurveAnalyzer], the strategy [FiveBarStrategy] and
    the driver [run_backtest].

    Numbers.  The script stores prices as binary64 floats.  The
    development uses exact integers ([Z], a price counted in ticks):
    the strategy only subtracts two closes and tests the sign of the
    difference, and the scenarios of the specification use small
    integers, which binary64 represents exactly.

    Time.  A bar's [DateTime] is the number of seconds since the epoch
    ([pd.to_datetime(..., unit='s')]); [dt.date()] is the day number
    [dt / 86400]. *)

From Stdlib Require Import String ZArith List Bool Lia Sorted.
Import ListNotations.
Local Open Scope Z_scope.

(** ** Exceptions *)

(** The Python exceptions that the modelled code can raise. *)
Inductive exn : Type :=
| RequestException       (* requests.get: connection failure, timeout *)
| HTTPError              (* response.raise_for_status: 4xx / 5xx      *)
| JSONDecodeError        (* response.json: the body is not JSON       *)
| ValueError
| KeyError (key : string)
| AttributeError
| TypeError
| IndexError.

Inductive result (A : Type) : Type :=
| Ok (a : A)
| Raise (e : exn).
Arguments Ok {A} a.
Arguments Raise {A} e.

Definition bind {A B : Type} (m : result A) (k : A -> result B) : result B :=
  match m with
  | Ok a => k a
  | Raise e => Raise e
  end.

Notation "x <- m ;; k" := (bind m (fun x => k))
  (at level 61, m at next level, right associativity).

(** ** Bars *)

Record bar : Type := Bar {
  DateTime : Z;
  Open : Z;
  High : Z;
  Low : Z;
  Close : Z;
  Volume : Z
}.

(** ** The strategy: [FiveBarStrategy] *)

(** The three requests a strategy can send to the broker:
    [self.buy()], [self.sell()] and [self.close()]. *)
Inductive side : Type := Buy | Sell | ClosePos.

(** The lines written by [self.log]. *)
Inductive log_line : Type :=
| BuyCreate (price : Z)
| SellCreate (price : Z)
| ClosePosition (price : Z).

(** What one call of [next] does to the outside: it prints and it
    submits orders, in this order. *)
Inductive event : Type :=
| Log (l : log_line)
| Submit (o : side).

(** [self.order]; [None] until the first [buy] or [sell]. *)
Record strategy : Type := Strategy { order : option side }.

Definition strategy_init : strategy := {| order := None |}.

(** [line[ago]] on the closes delivered so far, oldest first: [0] is the
    current bar and [-k] the bar [k] steps back. *)
Definition line_get (line : list Z) (ago : Z) : result Z :=
  let i := Z.of_nat (length line) - 1 + ago in
  if i <? 0 then Raise IndexError
  else match nth_error line (Z.to_nat i) with
       | Some x => Ok x
       | None => Raise IndexError
       end.

(** [FiveBarStrategy.next].  [dataclose] holds the closes of the bars
    delivered so far ([len(self.datas[0])] is its length) and
    [position] is [self.position.size]; a backtrader position is falsy
    exactly when its size is zero. *)
Definition next (lookback : Z) (dataclose : list Z) (position : Z)
    (self : strategy) : result (strategy * list event) :=
  if Z.of_nat (length dataclose) <=? lookback then Ok (self, [])
  else
    c0 <- line_get dataclose 0 ;;
    cl <- line_get dataclose (- lookback) ;;
    let diff := c0 - cl in
    if position =? 0 then
      if diff >? 0 then
        Ok ({| order := Some Buy |}, [Log (BuyCreate c0); Submit Buy])
      else if diff <? 0 then
        Ok ({| order := Some Sell |}, [Log (SellCreate c0); Submit Sell])
      else Ok (self, [])
    else
      if ((position >? 0) && (diff <? 0)) || ((position <? 0) && (diff >? 0))
      then Ok (self, [Log (ClosePosition c0); Submit ClosePos])
      else Ok (self, []).

(** The orders among the events of one call. *)
Fixpoint orders_of (evs : list event) : list side :=
  match evs with
  | [] => []
  | Submit o :: evs' => o :: orders_of evs'
  | Log _ :: evs' => orders_of evs'
  end.

(** ** The analyzer: [EquityCurveAnalyzer] *)

Record analyzer : Type := Analyzer {
  equity : list Z;
  dates : list Z;
  last_date : option Z
}.

(** [EquityCurveAnalyzer.__init__] *)
Definition analyzer_init : analyzer :=
  {| equity := []; dates := []; last_date := None |}.

(** [dt.date()] as a day number. *)
Definition date (dt : Z) : Z := dt / 86400.

(** [EquityCurveAnalyzer.next]: [dt] is the current bar's datetime and
    [value] what [self.strategy.broker.getvalue()] returns. *)
Definition analyzer_next (dt value : Z) (self : analyzer) : analyzer :=
  let new_day :=
    match last_date self with
    | None => true
    | Some last => negb (date dt =? date last)
    end in
  if new_day then
    {| equity := equity self ++ [value];
       dates := dates self ++ [dt];
       last_date := Some dt |}
  else self.

(** [EquityCurveAnalyzer.get_analysis] *)
Definition get_analysis (self : analyzer) : list Z * list Z :=
  (dates self, equity self).

(** The analyzer called once per observation [(dt, value)], in order. *)
Definition analyzer_run (obs : list (Z * Z)) (a : analyzer) : analyzer :=
  fold_left (fun a o => analyzer_next (fst o) (snd o) a) obs a.

(** ** The broker and the simulation loop

    [bt.Cerebro] and its broker belong to the backtrader package, which
    the script imports: their code is not in [FiveBar.py].  The script
    depends on the broker through three operations only, collected in
    the class below; the loop that drives the strategy and the analyzer
    is modelled from the specification. *)

(** The broker as the script uses it: [broker.getvalue()] (taken at the
    current close), [self.position.size], and the execution of a
    submitted order at a price. *)
Class Broker (B : Type) : Type := {
  getvalue : B -> Z -> Z;
  position_size : B -> Z;
  apply_fill : side -> Z -> B -> B
}.

(** Modelled from the spec: the fill events of section 6, which stand
    for the executions of backtrader's broker.  An executed order is the
    index of the bar at which it was requested and filled, its side and
    its price. *)
Record fill : Type := Fill {
  fill_bar : nat;
  fill_side : side;
  fill_price : Z
}.

(** Modelled from the spec: the state of the Engine of section 4.5,
    which stands for a [bt.Cerebro] of backtrader during [run()]: the
    broker, the strategy, the analyzer, the bars advanced over and the
    two books. *)
Record engine (B : Type) : Type := Engine {
  broker : B;
  strat : strategy;
  sampler : analyzer;
  delivered : list bar;            (* the bars advanced over so far *)
  submitted : list (nat * side);   (* bar index and side of each order *)
  fills : list fill
}.
Arguments Engine {B}.
Arguments broker {B} e.
Arguments strat {B} e.
Arguments sampler {B} e.
Arguments delivered {B} e.
Arguments submitted {B} e.
Arguments fills {B} e.

Section Engine.
Context {B : Type} `{Broker B}.

(** Modelled from the spec: step 1 of the Engine loop (section 4.5),
    the instances that [cerebro.run()] of backtrader creates: a fresh
    strategy and a fresh analyzer around a broker that holds the
    starting cash. *)
Definition engine_init (b0 : B) : engine B :=
  {| broker := b0; strat := strategy_init; sampler := analyzer_init;
     delivered := []; submitted := []; fills := [] |}.

(** Modelled from the spec: step 2 of the Engine loop (section 4.5),
    which stands for [cerebro.run()] of backtrader.  One bar is
    advanced over; the analyzer samples; the strategy decides; every
    order it submitted is applied at once at this bar's close. *)
Definition engine_step (lookback : Z) (e : engine B) (b : bar)
    : result (engine B) :=
  let n := length (delivered e) in
  let delivered' := delivered e ++ [b] in
  let sampler' :=
    analyzer_next (DateTime b) (getvalue (broker e) (Close b)) (sampler e) in
  r <- next lookback (map Close delivered') (position_size (broker e))
            (strat e) ;;
  let os := orders_of (snd r) in
  Ok {| broker := fold_left (fun br o => apply_fill o (Close b) br) os
                            (broker e);
        strat := fst r;
        sampler := sampler';
        delivered := delivered';
        submitted := submitted e ++ map (fun o => (n, o)) os;
        fills := fills e ++ map (fun o => Fill n o (Close b)) os |}.

(** Modelled from the spec: the Engine loop (section 4.5), which
    stands for [cerebro.run()] of backtrader; it runs while the feed
    has bars, and an error of the strategy halts the run. *)
Fixpoint engine_run (lookback : Z) (bars : list bar) (e : engine B)
    : result (engine B) :=
  match bars with
  | [] => Ok e
  | b :: bars' =>
      e' <- engine_step lookback e b ;;
      engine_run lookback bars' e'
  end.

(** Modelled from the spec: step 3 of the Engine loop (section 4.5),
    the [cerebro.broker.getvalue()] that [run_backtest] prints after
    the run: the value at the last close seen. *)
Definition final_value (e : engine B) : Z :=
  getvalue (broker e) (last (map Close (delivered e)) 0).
End Engine.

(** Modelled from the spec: the Account of section 3 and the Broker of
    section 4.2, which stand for backtrader's broker. *)
Record account : Type := Account {
  cash : Z;
  size : Z
}.

(** Modelled from the spec: the broker after [set_cash], holding the
    starting cash and no position (backtrader's broker is not in the
    source file). *)
Definition account_init (starting_cash : Z) : account :=
  {| cash := starting_cash; size := 0 |}.

(** Modelled from the spec: [portfolio_value(current_price)] of
    section 4.2, which stands for [getvalue()] of backtrader's
    broker. *)
Definition portfolio_value (a : account) (current_price : Z) : Z :=
  cash a + size a * current_price.

(** Modelled from the spec: [apply_fill(order, price)] of section 4.2,
    which stands for the order execution of backtrader's broker.  A buy
    adds the fixed unit, a sell removes it, a close zeroes the position;
    cash moves against the signed change of the position. *)
Definition account_apply_fill (o : side) (price : Z) (a : account) : account :=
  let size' :=
    match o with
    | Buy => size a + 1
    | Sell => size a - 1
    | ClosePos => 0
    end in
  {| cash := cash a - price * (size' - size a); size := size' |}.

#[export] Instance account_broker : Broker account := {
  getvalue := portfolio_value;
  position_size := size;
  apply_fill := account_apply_fill
}.

(** Modelled from the spec: a whole run of the Engine on the Broker of
    section 4.2: fresh engine, starting cash, all the bars. *)
Definition backtest (lookback starting_cash : Z) (bars : list bar)
    : result (engine account) :=
  engine_run lookback bars (engine_init (account_init starting_cash)).

(** ** The analyzer and the engine as Python objects

    A Python list is an object: [self.equity.append(x)] changes the
    list in place, and every name of that list sees the change.  The
    heap holds the list objects of the process, a list attribute is the
    address of one, and [[]] allocates a new one. *)

Definition heap : Type := list (list Z).

(** The list at an address. *)
Definition deref (h : heap) (r : nat) : list Z := nth r h [].

Fixpoint store (h : heap) (r : nat) (l : list Z) : heap :=
  match h, r with
  | [], _ => []
  | _ :: rest, O => l :: rest
  | x :: rest, S r' => x :: store rest r' l
  end.

(** [[]]: a new, empty list object. *)
Definition new_list (h : heap) : heap * nat := (h ++ [[]], length h).

(** [l.append(x)] on the list at address [r]. *)
Definition append (h : heap) (r : nat) (x : Z) : heap :=
  store h r (deref h r ++ [x]).

(** An [EquityCurveAnalyzer] instance: [self.equity] and [self.dates]
    are addresses, [self.last_date] is a value. *)
Record analyzer_object : Type := AnalyzerObject {
  equity_ref : nat;
  dates_ref : nat;
  last_date_attr : option Z
}.

(** [EquityCurveAnalyzer.__init__]: two new lists for each instance. *)
Definition analyzer_new (h : heap) : heap * analyzer_object :=
  let (h1, e) := new_list h in
  let (h2, d) := new_list h1 in
  (h2, {| equity_ref := e; dates_ref := d; last_date_attr := None |}).

(** [EquityCurveAnalyzer.next] on the instance. *)
Definition analyzer_object_next (dt value : Z) (h : heap)
    (self : analyzer_object) : heap * analyzer_object :=
  let new_day :=
    match last_date_attr self with
    | None => true
    | Some last => negb (date dt =? date last)
    end in
  if new_day then
    (append (append h (equity_ref self) value) (dates_ref self) dt,
     {| equity_ref := equity_ref self; dates_ref := dates_ref self;
        last_date_attr := Some dt |})
  else (h, self).

(** [EquityCurveAnalyzer.get_analysis]: the dict holds the two lists
    themselves, not copies of them. *)
Definition analyzer_object_analysis (self : analyzer_object) : nat * nat :=
  (dates_ref self, equity_ref self).

(** What an instance holds, read through the heap. *)
Definition analyzer_view (h : heap) (a : analyzer_object) : analyzer :=
  {| equity := deref h (equity_ref a);
     dates := deref h (dates_ref a);
     last_date := last_date_attr a |}.

(** Modelled from the spec: the state of the Engine of section 4.5
    (a [bt.Cerebro] of backtrader during [run()]) with the analyzer as
    an object of the heap. *)
Record engine_object (B : Type) : Type := EngineObject {
  o_broker : B;
  o_strat : strategy;
  o_sampler : analyzer_object;
  o_delivered : list bar;
  o_submitted : list (nat * side);
  o_fills : list fill
}.
Arguments EngineObject {B}.
Arguments o_broker {B} e.
Arguments o_strat {B} e.
Arguments o_sampler {B} e.
Arguments o_delivered {B} e.
Arguments o_submitted {B} e.
Arguments o_fills {B} e.

Section EngineObjects.
Context {B : Type} `{Broker B}.

(** Modelled from the spec: step 1 of the Engine loop (section 4.5),
    the instances that [cerebro.run()] of backtrader creates in the
    heap as it is found. *)
Definition engine_object_new (b0 : B) (h : heap) : heap * engine_object B :=
  let (h', a) := analyzer_new h in
  (h', {| o_broker := b0; o_strat := strategy_init; o_sampler := a;
          o_delivered := []; o_submitted := []; o_fills := [] |}).

(** Modelled from the spec: step 2 of the Engine loop (section 4.5),
    which stands for [cerebro.run()] of backtrader, on the heap. *)
Definition engine_object_step (lookback : Z) (h : heap) (e : engine_object B)
    (b : bar) : result (heap * engine_object B) :=
  let n := length (o_delivered e) in
  let delivered' := o_delivered e ++ [b] in
  let sampled :=
    analyzer_object_next (DateTime b) (getvalue (o_broker e) (Close b)) h
                         (o_sampler e) in
  r <- next lookback (map Close delivered') (position_size (o_broker e))
            (o_strat e) ;;
  let os := orders_of (snd r) in
  Ok (fst sampled,
      {| o_broker := fold_left (fun br o => apply_fill o (Close b) br) os
                               (o_broker e);
         o_strat := fst r;
         o_sampler := snd sampled;
         o_delivered := delivered';
         o_submitted := o_submitted e ++ map (fun o => (n, o)) os;
         o_fills := o_fills e ++ map (fun o => Fill n o (Close b)) os |}).

(** Modelled from the spec: the Engine loop (section 4.5), which
    stands for [cerebro.run()] of backtrader, on the heap. *)
Fixpoint engine_object_run (lookback : Z) (bars : list bar) (h : heap)
    (e : engine_object B) : result (heap * engine_object B) :=
  match bars with
  | [] => Ok (h, e)
  | b :: bars' =>
      s <- engine_object_step lookback h e b ;;
      engine_object_run lookback bars' (fst s) (snd s)
  end.

(** Modelled from the spec: a run of a freshly constructed Engine in
    the heap as it is found. *)
Definition run_fresh (lookback : Z) (bars : list bar) (b0 : B) (h : heap)
    : result (heap * engine_object B) :=
  let (h', e) := engine_object_new b0 h in
  engine_object_run lookback bars h' e.

(** The state of an engine, read through the heap. *)
Definition engine_view (h : heap) (e : engine_object B) : engine B :=
  {| broker := o_broker e; strat := o_strat e;
     sampler := analyzer_view h (o_sampler e);
     delivered := o_delivered e; submitted := o_submitted e;
     fills := o_fills e |}.
End EngineObjects.

(** An instance owns two distinct lists of the heap. *)
Definition owns (h : heap) (a : analyzer_object) : Prop :=
  (equity_ref a < length h)%nat /\ (dates_ref a < length h)%nat /\
  equity_ref a <> dates_ref a.

(** What a step or a run on the heap keeps: the engine still owns the
    same two lists, the heap has the same objects, and every list
    other than these two is as it was. *)
Definition kept {B : Type} (h : heap) (e : engine_object B) (h' : heap)
    (e' : engine_object B) : Prop :=
  owns h' (o_sampler e') /\
  length h' = length h /\
  equity_ref (o_sampler e') = equity_ref (o_sampler e) /\
  dates_ref (o_sampler e') = dates_ref (o_sampler e) /\
  forall r, r <> equity_ref (o_sampler e) -> r <> dates_ref (o_sampler e) ->
            deref h' r = deref h r.

(** ** Orders resolved against the next bar

    Section 4.2 of the specification gives two readings of [submit]:
    the order is "resolved against the next bar's open", or it fills at
    the close of the bar that triggered it.  The Engine above follows
    the second reading, as sections 4.5, 8 and 9 do.  The definitions
    below follow the first one, which is how the broker of backtrader
    treats the market orders that [self.buy()], [self.sell()] and
    [self.close()] create. *)




Section NextBar.
(** The broker's check of an order against the account before it is
    accepted (cash, margin), given the order and the bars delivered so
    far; the check itself is not part of the source file. *)
Variable accept : account -> nat * side -> list bar -> bool.



End NextBar.

(** ** The data fetch: [get_datetime_timestamp] and [ohlcv] *)

(** Days from 1970-01-01 to a date of the proleptic Gregorian
    calendar. *)
Definition days_from_civil (year month day : Z) : Z :=
  let y := if month <=? 2 then year - 1 else year in
  let era := y / 400 in
  let yoe := y - era * 400 in
  let mp := if month >? 2 then month - 3 else month + 9 in
  let doy := (153 * mp + 2) / 5 + day - 1 in
  let doe := yoe * 365 + yoe / 4 - yoe / 100 + doy in
  era * 146097 + doe - 719468.

(** [get_datetime_timestamp] on a ['YYYY-MM-DD'] string, given as its
    three numbers: pandas reads it as midnight, and [timestamp()] of a
    naive datetime counts seconds from the epoch. *)
Definition get_datetime_timestamp (year month day : Z) : Z :=
  days_from_civil year month day * 86400.

(** A decoded JSON document; [JObj] keeps the members in document
    order. *)
Unset Elimination Schemes.
Inductive json : Type :=
| JNull
| JBool (b : bool)
| JNum (n : Z)
| JStr (s : string)
| JArr (items : list json)
| JObj (members : list (string * json)).
Set Elimination Schemes.

(** The request sent by [requests.get]: the query part of [ohlc_url]. *)
Record query : Type := Query {
  q_symbol : string;
  q_resolution : Z;
  q_from : Z;
  q_to : Z
}.

(** What the network answers: nothing (connection error, timeout), or
    a status code and a body that may or may not be JSON. *)
Inductive reply : Type :=
| NoReply
| Reply (status : Z) (body : option json).

(** A [DataFrame]: [pd.DataFrame()] has no column and no row; the
    frame that [ohlcv] builds from its dict has the six columns
    [DateTime], [Open], [High], [Low], [Close] and [Volume], and its
    rows. *)
Inductive frame : Type :=
| NoColumns
| Table (rows : list bar).

Definition empty_frame : frame := NoColumns.

(** The lines the script prints. *)
Inductive printed : Type :=
| ErrorFetchingData (e : exn)
| DataError (e : exn)
| StartingPortfolioValue (v : Z)
| FinalPortfolioValue (v : Z).

(** A member of a Python dict built from a JSON object: a later
    duplicate of a key replaces an earlier one. *)
Fixpoint member (k : string) (members : list (string * json)) : option json :=
  match members with
  | [] => None
  | (k', v) :: rest =>
      match member k rest with
      | Some v' => Some v'
      | None => if String.eqb k k' then Some v else None
      end
  end.

(** [data.get(k)]: only a dict has the method. *)
Definition dict_get (data : json) (k : string) : result (option json) :=
  match data with
  | JObj members => Ok (member k members)
  | _ => Raise AttributeError
  end.

(** [data[k]] once [data] is known to be a dict. *)
Definition getitem (data : json) (k : string) : result json :=
  match data with
  | JObj members =>
      match member k members with
      | Some v => Ok v
      | None => Raise (KeyError k)
      end
  | _ => Raise AttributeError
  end.

(** Python truthiness of what [data.get] returns; a missing key gives
    [None]. *)
Definition truthy (v : option json) : bool :=
  match v with
  | None | Some JNull => false
  | Some (JBool b) => b
  | Some (JNum n) => negb (n =? 0)
  | Some (JStr s) => negb (String.eqb s "")
  | Some (JArr items) => match items with [] => false | _ => true end
  | Some (JObj members) => match members with [] => false | _ => true end
  end.

(** [v != 'ok'] *)
Definition not_ok (v : json) : bool :=
  match v with
  | JStr s => negb (String.eqb s "ok")
  | _ => true
  end.

(** [isinstance(e, requests.RequestException)]: [HTTPError] and the
    decoding error of [response.json()] are subclasses. *)
Definition is_RequestException (e : exn) : bool :=
  match e with
  | RequestException | HTTPError | JSONDecodeError => true
  | _ => false
  end.

(** [isinstance(e, ValueError)] *)
Definition is_ValueError (e : exn) : bool :=
  match e with
  | ValueError | JSONDecodeError => true
  | _ => false
  end.

(** The three pandas calls of [ohlcv]; pandas is an imported package. *)
Class Pandas : Type := {
  to_datetime : json -> result (list Z);
  Series : json -> result (list Z);
  DataFrame :
    list Z -> list Z -> list Z -> list Z -> list Z -> list Z -> result frame
}.

Section Fetch.
Context `{Pandas}.
Variable requests_get : query -> reply.

(** [response.raise_for_status()] *)
Definition raise_for_status (status : Z) : result unit :=
  if (400 <=? status) && (status <? 600) then Raise HTTPError else Ok tt.

(** [response.json()] *)
Definition response_json (body : option json) : result json :=
  match body with
  | Some data => Ok data
  | None => Raise JSONDecodeError
  end.

(** The [try] block of [ohlcv]. *)
Definition ohlcv_try (symbol : string) (resolution start stop : Z)
    : result frame :=
  match requests_get {| q_symbol := symbol; q_resolution := resolution;
                        q_from := start; q_to := stop |} with
  | NoReply => Raise RequestException
  | Reply status body =>
      _ <- raise_for_status status ;;
      data <- response_json body ;;
      t <- dict_get data "t" ;;
      if negb (truthy t) then Raise ValueError
      else
        s <- getitem data "s" ;;
        if not_ok s then Raise ValueError
        else
          jt <- getitem data "t" ;; dt <- to_datetime jt ;;
          jo <- getitem data "o" ;; o <- Series jo ;;
          jh <- getitem data "h" ;; h <- Series jh ;;
          jl <- getitem data "l" ;; l <- Series jl ;;
          jc <- getitem data "c" ;; c <- Series jc ;;
          jv <- getitem data "v" ;; v <- Series jv ;;
          DataFrame dt o h l c v
  end.

(** [ohlcv]: the [try] block under its two [except] clauses.  The
    result carries what was printed. *)
Definition ohlcv (symbol : string) (resolution start stop : Z)
    : result (frame * list printed) :=
  match ohlcv_try symbol resolution start stop with
  | Ok ohlcv_data => Ok (ohlcv_data, [])
  | Raise e =>
      if is_RequestException e then Ok (empty_frame, [ErrorFetchingData e])
      else if is_ValueError e then Ok (empty_frame, [DataError e])
      else Raise e
  end.

(** ** The driver: [run_backtest] *)

(** [bt.feeds.PandasData(dataname=df, datetime='DateTime', ...)]: the
    frame and, for each line of the feed, the name of the column it is
    read from; [openinterest=None] reads none. *)
Record PandasData : Type := {
  dataname : frame;
  datetime : string;
  open : string;
  high : string;
  low : string;
  close : string;
  volume : string;
  openinterest : option string
}.


End Fetch.

(** A stand-in for pandas, used to evaluate [ohlcv] on concrete
    replies: a column is a JSON array of numbers, and the six columns
    of a frame have the same length; anything else is a [ValueError]. *)
Fixpoint numbers (items : list json) : result (list Z) :=
  match items with
  | [] => Ok []
  | JNum n :: rest => ns <- numbers rest ;; Ok (n :: ns)
  | _ :: _ => Raise ValueError
  end.

Definition column (j : json) : result (list Z) :=
  match j with
  | JArr items => numbers items
  | _ => Raise ValueError
  end.

Fixpoint rows (dt o h l c v : list Z) : result (list bar) :=
  match dt, o, h, l, c, v with
  | [], [], [], [], [], [] => Ok []
  | t :: dt', o1 :: o', h1 :: h', l1 :: l', c1 :: c', v1 :: v' =>
      rest <- rows dt' o' h' l' c' v' ;;
      Ok (Bar t o1 h1 l1 c1 v1 :: rest)
  | _, _, _, _, _, _ => Raise ValueError
  end.

#[export] Instance plain_pandas : Pandas := {
  to_datetime := column;
  Series := column;
  DataFrame := fun dt o h l c v => r <- rows dt o h l c v ;; Ok (Table r)
}.

(** The names of the columns of a frame. *)
Definition frame_columns (f : frame) : list string :=
  match f with
  | NoColumns => []
  | Table _ =>
      ["DateTime"; "Open"; "High"; "Low"; "Close"; "Volume"]%string
  end.

Definition frame_rows (f : frame) : list bar :=
  match f with
  | NoColumns => []
  | Table rows => rows
  end.

(** The entry of a row in the column of a given name. *)
Definition column_value (name : string) (row : bar) : Z :=
  if String.eqb name "DateTime" then DateTime row
  else if String.eqb name "Open" then Open row
  else if String.eqb name "High" then High row
  else if String.eqb name "Low" then Low row
  else if String.eqb name "Close" then Close row
  else if String.eqb name "Volume" then Volume row
  else 0.

(** The bar that the feed delivers for a row: each line read from the
    column it is mapped to. *)
Definition feed_bar (d : PandasData) (row : bar) : bar :=
  {| DateTime := column_value (datetime d) row;
     Open := column_value (open d) row;
     High := column_value (high d) row;
     Low := column_value (low d) row;
     Close := column_value (close d) row;
     Volume := column_value (volume d) row |}.

(** Modelled from the spec: the [DataSourceError] of section 7, raised
    before the Engine loop starts.  It stands for the start of the feed
    in backtrader ([PandasData.start], not in the source file), which
    looks up every column named in the mapping and fails with a
    [ValueError] when the frame does not have it, as a frame without
    columns never does. *)
Definition feed_start (d : PandasData) : result (list bar) :=
  let named :=
    [datetime d; open d; high d; low d; close d; volume d] ++
    match openinterest d with
    | Some name => [name]
    | None => []
    end in
  if forallb (fun name => existsb (String.eqb name)
                                  (frame_columns (dataname d))) named
  then Ok (map (feed_bar d) (frame_rows (dataname d)))
  else Raise ValueError.


(** The replies from which [ohlcv] gets no table: no reply at all, an
    error status, a body that is not JSON, or a JSON object whose ['t']
    is missing or empty or whose ['s'] is present and is not ['ok']. *)
Definition feed_unusable (r : reply) : bool :=
  match r with
  | NoReply => true
  | Reply status body =>
      ((400 <=? status) && (status <? 600)) ||
      match body with
      | None => true
      | Some (JObj members) =>
          negb (truthy (member "t" members)) ||
          match member "s" members with
          | Some s => not_ok s
          | None => false
          end
      | Some _ => false
      end
  end.

(** The query that [run_backtest] sends. *)
Definition btcusdt_4h : query :=
  {| q_symbol := "btcusdt"; q_resolution := 240;
     q_from := get_datetime_timestamp 2022 4 28;
     q_to := get_datetime_timestamp 2025 4 28 |}.

(** The books and the broker of a finished run; [None] when the run
    was halted. *)
Definition summary {B : Type} (r : result (engine B))
    : option (list (nat * side) * list fill * B) :=
  match r with
  | Ok e => Some (submitted e, fills e, broker e)
  | Raise _ => None
  end.

(** ** Order notifications: [log] and [notify_order] *)

(** The states of a backtrader order, [order.status]. *)
Inductive order_status : Type :=
| Created | Submitted | Accepted | Partial | Completed
| Canceled | Expired | Margin | Rejected.

(** [order.isbuy()] holds of a [BuyOrder], [order.issell()] of a
    [SellOrder]. *)
Inductive ordtype : Type := BuyOrder | SellOrder.

(** What [notify_order] reads of the order it is given. *)
Record order_info : Type := OrderInfo {
  status : order_status;
  kind : ordtype;
  executed_price : Z
}.

(** The two texts of [notify_order]. *)
Inductive notice : Type :=
| BuyExecuted (price : Z)
| SellExecuted (price : Z).

(** [FiveBarStrategy.log]: the line is stamped with [dt] when one is
    given and with the datetime of the current bar, [now], otherwise. *)
Definition log {T : Type} (txt : T) (dt : option Z) (now : Z) : Z * T :=
  (match dt with Some d => d | None => now end, txt).

(** [FiveBarStrategy.notify_order], as the lines it prints. *)
Definition notify_order (now : Z) (o : order_info) : list (Z * notice) :=
  match status o with
  | Completed =>
      match kind o with
      | BuyOrder => [log (BuyExecuted (executed_price o)) None now]
      | SellOrder => [log (SellExecuted (executed_price o)) None now]
      end
  | _ => []
  end.

(** ** Notions used to state further properties *)

(** What a call of [next] decides: the new [self.order] and the orders
    submitted, without the prices quoted in the log. *)
Definition decision (r : result (strategy * list event))
    : result (option side * list side) :=
  match r with
  | Ok (self', evs) => Ok (order self', orders_of evs)
  | Raise e => Raise e
  end.

(** Buying and selling exchanged. *)
Definition mirror (o : side) : side :=
  match o with
  | Buy => Sell
  | Sell => Buy
  | ClosePos => ClosePos
  end.

Definition mirror_decision (r : result (option side * list side))
    : result (option side * list side) :=
  match r with
  | Ok (o, os) => Ok (option_map mirror o, map mirror os)
  | Raise e => Raise e
  end.

(** Whether an observation at [dt] opens a new day after one at
    [prev]. *)
Definition new_day (prev : option Z) (dt : Z) : bool :=
  match prev with
  | None => true
  | Some p => negb (date dt =? date p)
  end.

(** The observations whose date differs from the date of the
    observation just before them; [prev] is the datetime of the
    observation before the first one, if any. *)
Fixpoint day_changes (prev : option Z) (obs : list (Z * Z)) : list (Z * Z) :=
  match obs with
  | [] => []
  | o :: rest =>
      if new_day prev (fst o)
      then o :: day_changes (Some (fst o)) rest
      else day_changes (Some (fst o)) rest
  end.

(** The query part of the URL that [ohlcv] builds from its arguments. *)
Definition ohlc_url (symbol : string) (resolution start stop : Z) : query :=
  {| q_symbol := symbol; q_resolution := resolution;
     q_from := start; q_to := stop |}.

(** ** Sample data *)

(** Five four-hour bars of 2022-04-28 with the closes 10, 10, 10, 11
    and 9. *)
Definition scenario : list bar :=
  [ Bar 1651104000 10 10 10 10 1;
    Bar 1651118400 10 10 10 10 1;
    Bar 1651132800 10 11 10 10 1;
    Bar 1651147200 10 11 10 11 1;
    Bar 1651161600 11 11 9 9 1 ].

(** Five four-hour bars that all close at 10. *)
Definition steady : list bar :=
  [ Bar 1651104000 10 10 10 10 1;
    Bar 1651118400 10 11 10 10 1;
    Bar 1651132800 10 10 9 10 1;
    Bar 1651147200 10 12 10 10 1;
    Bar 1651161600 10 10 8 10 1 ].

(** The feed that [run_backtest] builds around a frame. *)
Definition feed_of (df : frame) : PandasData :=
  {| dataname := df; datetime := "DateTime"; open := "Open";
     high := "High"; low := "Low"; close := "Close";
     volume := "Volume"; openinterest := None |}.

(** The answer of the API for a range without bars. *)
Definition no_data (_ : query) : reply :=
  Reply 200 (Some (JObj [("s"%string, JStr "no_data");
                         ("t"%string, JArr [])])).

(** Observations of an analyzer, as (datetime, broker value): two on
    2022-04-28, one on 2022-04-29 and two on 2022-04-30. *)
Definition three_days : list (Z * Z) :=
  [ (1651104000, 101); (1651118400, 102);
    (1651190400, 103);
    (1651276800, 104); (1651291200, 105) ].

(** * Properties *)

(** ** The strategy *)

Lemma line_get_in_range (line : list Z) (ago : Z) :
  0 <= Z.of_nat (length line) - 1 + ago < Z.of_nat (length line) ->
  exists x,
    line_get line ago = Ok x /\
    nth_error line (Z.to_nat (Z.of_nat (length line) - 1 + ago)) = Some x.
Proof.
  intros Hr. unfold line_get. cbv zeta.
  destruct (Z.ltb_spec (Z.of_nat (length line) - 1 + ago) 0) as [Hneg|_];
    [lia|].
  destruct (nth_error line (Z.to_nat (Z.of_nat (length line) - 1 + ago)))
    as [x|] eqn:E.
  - exists x. split; reflexivity.
  - apply nth_error_None in E. lia.
Qed.

Lemma next_guard (lookback : Z) (dataclose : list Z) (position : Z)
    (self : strategy) :
  Z.of_nat (length dataclose) <= lookback ->
  next lookback dataclose position self = Ok (self, []).
Proof.
  intros Hg. unfold next.
  destruct (Z.leb_spec (Z.of_nat (length dataclose)) lookback); [reflexivity|lia].
Qed.

(** Past the guard, [next] reads the current close and the close
    [lookback] bars back, and does not fail. *)
Lemma next_past_guard (lookback : Z) (dataclose : list Z) (position : Z)
    (self : strategy) :
  0 <= lookback -> lookback < Z.of_nat (length dataclose) ->
  exists c0 cl,
    nth_error dataclose (length dataclose - 1) = Some c0 /\
    nth_error dataclose (length dataclose - 1 - Z.to_nat lookback) = Some cl /\
    next lookback dataclose position self =
      (let diff := c0 - cl in
       if position =? 0 then
         if diff >? 0 then
           Ok ({| order := Some Buy |}, [Log (BuyCreate c0); Submit Buy])
         else if diff <? 0 then
           Ok ({| order := Some Sell |}, [Log (SellCreate c0); Submit Sell])
         else Ok (self, [])
       else
         if ((position >? 0) && (diff <? 0)) || ((position <? 0) && (diff >? 0))
         then Ok (self, [Log (ClosePosition c0); Submit ClosePos])
         else Ok (self, [])).
Proof.
  intros H0 Hg.
  destruct (line_get_in_range dataclose 0) as (c0 & E0 & N0); [lia|].
  destruct (line_get_in_range dataclose (- lookback)) as (cl & El & Nl); [lia|].
  exists c0, cl.
  replace (Z.to_nat (Z.of_nat (length dataclose) - 1 + 0))
    with (length dataclose - 1)%nat in N0 by lia.
  replace (Z.to_nat (Z.of_nat (length dataclose) - 1 + - lookback))
    with (length dataclose - 1 - Z.to_nat lookback)%nat in Nl by lia.
  split; [exact N0|]. split; [exact Nl|].
  unfold next.
  destruct (Z.leb_spec (Z.of_nat (length dataclose)) lookback); [lia|].
  rewrite E0, El. reflexivity.
Qed.

(** C1.  At a bar where the lookback guard is satisfied (more than
    [lookback] bars delivered), with [diff] the current close minus the
    close [lookback] bars back: when flat, [diff > 0] submits a buy,
    [diff < 0] a sell and [diff = 0] nothing; when long, [diff < 0]
    submits a close and anything else nothing; when short, [diff > 0]
    submits a close and anything else nothing; one call never submits
    more than one order. *)
Theorem next_transition_table (lookback : Z) (dataclose : list Z)
    (position : Z) (self : strategy) :
  0 <= lookback -> lookback < Z.of_nat (length dataclose) ->
  exists c0 cl self' evs,
    nth_error dataclose (length dataclose - 1) = Some c0 /\
    nth_error dataclose (length dataclose - 1 - Z.to_nat lookback) = Some cl /\
    next lookback dataclose position self = Ok (self', evs) /\
    let diff := c0 - cl in
    let os := orders_of evs in
    (position = 0 -> diff > 0 -> os = [Buy]) /\
    (position = 0 -> diff < 0 -> os = [Sell]) /\
    (position = 0 -> diff = 0 -> os = []) /\
    (position > 0 -> diff < 0 -> os = [ClosePos]) /\
    (position > 0 -> diff >= 0 -> os = []) /\
    (position < 0 -> diff > 0 -> os = [ClosePos]) /\
    (position < 0 -> diff <= 0 -> os = []) /\
    (length os <= 1)%nat.
Proof.
  intros H0 Hg.
  destruct (next_past_guard lookback dataclose position self H0 Hg)
    as (c0 & cl & N0 & Nl & E).
  exists c0, cl. cbv zeta in E. rewrite E. clear E.
  destruct (Z.eqb_spec position 0) as [Hp|Hp].
  - destruct (Z.gtb_spec (c0 - cl) 0) as [Hd|Hd];
      [|destruct (Z.ltb_spec (c0 - cl) 0) as [Hd'|Hd']];
      eexists; eexists; (split; [exact N0|]); (split; [exact Nl|]);
      (split; [reflexivity|]); cbn; repeat split; intros; try reflexivity;
      try lia.
  - destruct (Z.gtb_spec position 0) as [Hpp|Hpp];
      destruct (Z.ltb_spec position 0) as [Hpn|Hpn];
      destruct (Z.gtb_spec (c0 - cl) 0) as [Hd|Hd];
      destruct (Z.ltb_spec (c0 - cl) 0) as [Hd'|Hd']; cbn;
      eexists; eexists; (split; [exact N0|]); (split; [exact Nl|]);
      (split; [reflexivity|]); cbn; repeat split; intros; try reflexivity;
      try lia.
Qed.

Lemma next_transition_table_witness :
  exists c0 cl self' evs,
    nth_error [10; 10; 10; 11] 3 = Some c0 /\
    nth_error [10; 10; 10; 11] 0 = Some cl /\
    next 3 [10; 10; 10; 11] 0 strategy_init = Ok (self', evs) /\
    c0 - cl > 0 /\ orders_of evs = [Buy].
Proof.
  destruct (next_transition_table 3 [10; 10; 10; 11] 0 strategy_init)
    as (c0 & cl & self' & evs & N0 & Nl & E & T); [lia | cbn; lia |].
  exists c0, cl, self', evs.
  cbn in N0, Nl. injection N0 as <-. injection Nl as <-.
  destruct T as (Tbuy & _).
  repeat split; try assumption; try reflexivity.
  apply Tbuy; [reflexivity | reflexivity].
Defined.

(** ** The simulation loop, for any broker *)

Section EngineFacts.
Context {B : Type} `{Broker B}.
Variable lookback : Z.

Lemma engine_run_app (xs ys : list bar) (e : engine B) :
  engine_run lookback (xs ++ ys) e =
  (e' <- engine_run lookback xs e ;; engine_run lookback ys e').
Proof.
  revert e. induction xs as [|x xs IH]; intros e; cbn.
  - reflexivity.
  - destruct (engine_step lookback e x) as [e1|x1]; cbn; [apply IH|reflexivity].
Qed.

Lemma engine_step_delivered (e e' : engine B) (b : bar) :
  engine_step lookback e b = Ok e' -> delivered e' = delivered e ++ [b].
Proof.
  unfold engine_step.
  destruct (next lookback _ _ _) as [r|x]; cbn; [|discriminate].
  intros [= <-]. reflexivity.
Qed.

Lemma engine_run_delivered (bars : list bar) (e e' : engine B) :
  engine_run lookback bars e = Ok e' -> delivered e' = delivered e ++ bars.
Proof.
  revert e. induction bars as [|b bars IH]; intros e; cbn.
  - intros [= <-]. now rewrite app_nil_r.
  - destruct (engine_step lookback e b) as [e1|x1] eqn:E; cbn; [|discriminate].
    intros Hr. apply IH in Hr. rewrite Hr.
    rewrite (engine_step_delivered _ _ _ E), <- app_assoc. reflexivity.
Qed.

(** A step on which the strategy submits nothing changes neither the
    broker nor the order books. *)
Lemma engine_step_quiet (e : engine B) (b : bar) :
  next lookback (map Close (delivered e ++ [b])) (position_size (broker e))
       (strat e) = Ok (strat e, []) ->
  exists e',
    engine_step lookback e b = Ok e' /\
    broker e' = broker e /\ strat e' = strat e /\
    submitted e' = submitted e /\ fills e' = fills e.
Proof.
  intros E. unfold engine_step. rewrite E. cbn.
  eexists. split; [reflexivity|]. cbn.
  rewrite !app_nil_r. repeat split; reflexivity.
Qed.

(** While the guard of [next] holds for every bar still to come, the
    run ends normally and nothing is submitted. *)
Lemma engine_run_guarded (bars : list bar) (e : engine B) :
  Z.of_nat (length (delivered e) + length bars) <= lookback ->
  exists e',
    engine_run lookback bars e = Ok e' /\
    broker e' = broker e /\ submitted e' = submitted e /\
    fills e' = fills e.
Proof.
  revert e. induction bars as [|b bars IH]; intros e Hlen; cbn.
  - exists e. repeat split; reflexivity.
  - destruct (engine_step_quiet e b) as (e1 & E1 & Hb & Hs & Hsub & Hf).
    { apply next_guard. rewrite length_map, length_app. cbn in *. lia. }
    rewrite E1. cbn.
    destruct (IH e1) as (e' & E' & Hb' & Hsub' & Hf').
    { rewrite (engine_step_delivered _ _ _ E1), length_app. cbn in *. lia. }
    exists e'. rewrite E'. repeat split; congruence.
Qed.

Lemma nth_error_all_equal (c : Z) (l : list Z) (i : nat) (x : Z) :
  (forall y, In y l -> y = c) -> nth_error l i = Some x -> x = c.
Proof. intros Hall Hn. apply Hall. eapply nth_error_In; eassumption. Qed.

(** On equal closes the difference is zero and [next] submits
    nothing, whatever the position. *)
Lemma next_constant (c : Z) (dataclose : list Z) (position : Z)
    (self : strategy) :
  0 <= lookback ->
  (forall y, In y dataclose -> y = c) ->
  next lookback dataclose position self = Ok (self, []).
Proof.
  intros H0 Hall.
  destruct (Z.le_gt_cases (Z.of_nat (length dataclose)) lookback) as [Hg|Hg].
  - now apply next_guard.
  - destruct (next_past_guard lookback dataclose position self H0) as
      (c0 & cl & N0 & Nl & E); [lia|].
    rewrite E. cbv zeta.
    rewrite (nth_error_all_equal c _ _ _ Hall N0), (nth_error_all_equal c _ _ _ Hall Nl).
    rewrite Z.sub_diag. cbn.
    rewrite !andb_false_r. cbn.
    destruct (position =? 0); reflexivity.
Qed.

Lemma engine_run_constant (c : Z) (bars : list bar) (e : engine B) :
  0 <= lookback ->
  (forall b, In b (delivered e) -> Close b = c) ->
  (forall b, In b bars -> Close b = c) ->
  exists e',
    engine_run lookback bars e = Ok e' /\
    broker e' = broker e /\ submitted e' = submitted e /\
    fills e' = fills e.
Proof.
  intros H0. revert e.
  induction bars as [|b bars IH]; intros e Hd Hb; cbn.
  - exists e. repeat split; reflexivity.
  - destruct (engine_step_quiet e b) as (e1 & E1 & Hbr & Hs & Hsub & Hf).
    { apply next_constant with (c := c); [exact H0|].
      intros y Hy. apply in_map_iff in Hy as (b' & <- & Hin).
      apply in_app_or in Hin as [Hin|[<-|[]]];
        [now apply Hd | apply Hb; now left]. }
    rewrite E1. cbn.
    destruct (IH e1) as (e' & E' & Hb' & Hsub' & Hf').
    { rewrite (engine_step_delivered _ _ _ E1). intros b' Hin.
      apply in_app_or in Hin as [Hin|[<-|[]]];
        [now apply Hd | apply Hb; now left]. }
    { intros b' Hin. apply Hb. now right. }
    exists e'. rewrite E'. repeat split; congruence.
Qed.

End EngineFacts.

(** ** What a run leaves behind, for any broker *)

Section RunFacts.
Context {B : Type} `{Broker B}.
Variable lookback : Z.
Variable b0 : B.

Lemma engine_step_fields (e e' : engine B) (b : bar) :
  engine_step lookback e b = Ok e' ->
  exists os,
    broker e' = fold_left (fun br o => apply_fill o (Close b) br) os (broker e) /\
    sampler e' =
      analyzer_next (DateTime b) (getvalue (broker e) (Close b)) (sampler e) /\
    delivered e' = delivered e ++ [b] /\
    submitted e' =
      submitted e ++ map (fun o => (length (delivered e), o)) os /\
    fills e' =
      fills e ++ map (fun o => Fill (length (delivered e)) o (Close b)) os.
Proof.
  unfold engine_step.
  destruct (next lookback _ _ _) as [r|x]; cbn; [|discriminate].
  intros [= <-]. exists (orders_of (snd r)). cbn.
  repeat split; reflexivity.
Qed.

Lemma engine_run_snoc (bars : list bar) (b : bar) (e0 e' : engine B) :
  engine_run lookback (bars ++ [b]) e0 = Ok e' ->
  exists e, engine_run lookback bars e0 = Ok e /\
            engine_step lookback e b = Ok e'.
Proof.
  rewrite engine_run_app.
  destruct (engine_run lookback bars e0) as [e|x]; cbn; [|discriminate].
  destruct (engine_step lookback e b) as [e1|x1] eqn:E; cbn; [|discriminate].
  intros [= <-]. exists e. split; [reflexivity | exact E].
Qed.

(** The broker after a run is the starting broker with every fill of
    the book applied, in order. *)
Lemma run_broker_fills (bars : list bar) (e : engine B) :
  engine_run lookback bars (engine_init b0) = Ok e ->
  broker e =
  fold_left (fun br f => apply_fill (fill_side f) (fill_price f) br)
            (fills e) b0.
Proof.
  revert e. induction bars as [|b bars IH] using rev_ind; intros e Hr.
  - cbn in Hr. injection Hr as <-. reflexivity.
  - apply engine_run_snoc in Hr as (e1 & H1 & Hs).
    apply engine_step_fields in Hs as (os & -> & _ & _ & _ & ->).
    rewrite fold_left_app, <- (IH _ H1).
    generalize (broker e1). clear.
    induction os as [|o os IHo]; intros br; cbn; [reflexivity | apply IHo].
Qed.

(** Every sample of the analyzer was taken at some bar [i], from the
    broker as it stood after the bars before [i], at bar [i]'s close. *)
Lemma run_samples (bars : list bar) (e : engine B) :
  engine_run lookback bars (engine_init b0) = Ok e ->
  length (dates (sampler e)) = length (equity (sampler e)) /\
  forall k dt v,
    nth_error (dates (sampler e)) k = Some dt ->
    nth_error (equity (sampler e)) k = Some v ->
    exists i b ei,
      nth_error bars i = Some b /\ DateTime b = dt /\
      engine_run lookback (firstn i bars) (engine_init b0) = Ok ei /\
      v = getvalue (broker ei) (Close b).
Proof.
  revert e. induction bars as [|b bars IH] using rev_ind; intros e Hr.
  - cbn in Hr. injection Hr as <-. cbn. split; [reflexivity|].
    intros [|k] dt v; discriminate.
  - apply engine_run_snoc in Hr as (e1 & H1 & Hs).
    destruct (IH _ H1) as (Hlen & Hsam).
    apply engine_step_fields in Hs as (os & _ & -> & _).
    assert (Hold : forall k dt v,
      nth_error (dates (sampler e1)) k = Some dt ->
      nth_error (equity (sampler e1)) k = Some v ->
      exists i b' ei,
        nth_error (bars ++ [b]) i = Some b' /\ DateTime b' = dt /\
        engine_run lookback (firstn i (bars ++ [b])) (engine_init b0) = Ok ei /\
        v = getvalue (broker ei) (Close b')).
    { intros k dt v Hk Hv.
      destruct (Hsam k dt v Hk Hv) as (i & b' & ei & Hn & Hdt & Hrun & Hval).
      assert (Hi : (i < length bars)%nat)
        by (apply nth_error_Some; congruence).
      exists i, b', ei. repeat split; try assumption.
      - rewrite nth_error_app1; assumption.
      - rewrite firstn_app.
        replace (i - length bars)%nat with 0%nat by lia.
        cbn. rewrite app_nil_r. exact Hrun. }
    unfold analyzer_next. cbv zeta.
    destruct (match last_date (sampler e1) with
              | Some last => negb (date (DateTime b) =? date last)
              | None => true
              end); [|split; assumption].
    cbn. split; [rewrite !length_app; cbn; lia|].
    intros k dt v Hk Hv.
    destruct (Nat.lt_ge_cases k (length (dates (sampler e1)))) as [Hlt|Hge].
    + rewrite nth_error_app1 in Hk by assumption.
      rewrite nth_error_app1 in Hv by lia.
      eapply Hold; eassumption.
    + rewrite nth_error_app2 in Hk by assumption.
      rewrite nth_error_app2 in Hv by lia.
      rewrite <- Hlen in Hv.
      destruct (k - length (dates (sampler e1)))%nat as [|k'];
        [|destruct k'; discriminate].
      cbn in Hk, Hv. injection Hk as <-. injection Hv as <-.
      exists (length bars), b, e1. repeat split.
      * rewrite nth_error_app2, Nat.sub_diag; [reflexivity | lia].
      * rewrite firstn_app, Nat.sub_diag, firstn_all. cbn.
        rewrite app_nil_r. exact H1.
Qed.
End RunFacts.

Lemma summary_Some {B : Type} (r : result (engine B))
    (s : list (nat * side)) (f : list fill) (b : B) :
  summary r = Some (s, f, b) ->
  exists e, r = Ok e /\ submitted e = s /\ fills e = f /\ broker e = b.
Proof.
  destruct r as [e|x]; cbn; [|discriminate].
  intros [= <- <- <-]. exists e. repeat split; reflexivity.
Qed.

(** ** Claims about whole runs *)

(** C3.  With a lookback of at least one and fewer than [lookback + 1]
    bars, the strategy never submits an order: at every bar, whatever
    the position, [next] returns at its guard without an event; and a
    run that starts flat has, after every prefix of the bars, an empty
    order book, an empty fill book and a flat position. *)
Theorem short_feed_never_orders {B : Type} `{Broker B}
    (lookback : Z) (bars : list bar) (b0 : B) :
  1 <= lookback ->
  Z.of_nat (length bars) < lookback + 1 ->
  position_size b0 = 0 ->
  forall n,
    (forall position self,
       next lookback (map Close (firstn n bars)) position self =
         Ok (self, [])) /\
    exists e,
      engine_run lookback (firstn n bars) (engine_init b0) = Ok e /\
      submitted e = [] /\ fills e = [] /\ position_size (broker e) = 0.
Proof.
  intros Hl Hshort Hflat n. split.
  - intros position self. apply next_guard.
    rewrite length_map, length_firstn. lia.
  - destruct (engine_run_guarded lookback (firstn n bars) (engine_init b0))
      as (e & E & Hb & Hs & Hf).
    { unfold engine_init. cbn [delivered length Nat.add].
      rewrite length_firstn. lia. }
    exists e. rewrite Hb, Hs, Hf. cbn. auto.
Qed.

Lemma short_feed_never_orders_witness :
  (forall position self,
     next 3 (map Close (firstn 3 (firstn 3 scenario))) position self =
       Ok (self, [])) /\
  exists e,
    engine_run 3 (firstn 3 (firstn 3 scenario)) (engine_init (account_init 100))
      = Ok e /\
    submitted e = [] /\ fills e = [] /\ position_size (broker e) = 0.
Proof.
  apply (short_feed_never_orders 3 (firstn 3 scenario) (account_init 100));
    [lia | cbn; lia | reflexivity].
Defined.

(** C8.  On bars that all close at the same price, with the broker of
    the specification, the run ends normally, no order is ever
    submitted and the final portfolio value is the starting cash. *)
Theorem constant_closes_no_trade (lookback starting_cash c : Z)
    (bars : list bar) :
  0 <= lookback ->
  (forall b, In b bars -> Close b = c) ->
  exists e,
    backtest lookback starting_cash bars = Ok e /\
    submitted e = [] /\ fills e = [] /\
    final_value e = starting_cash.
Proof.
  intros H0 Hc. unfold backtest.
  destruct (engine_run_constant lookback c bars
              (engine_init (account_init starting_cash)) H0)
    as (e & E & Hb & Hs & Hf); [intros b [] | exact Hc |].
  exists e. repeat split; try assumption.
  unfold final_value. rewrite Hb. cbn. unfold portfolio_value. cbn. lia.
Qed.

Lemma constant_closes_no_trade_witness :
  exists e,
    backtest 3 101 steady = Ok e /\
    submitted e = [] /\ fills e = [] /\ final_value e = 101.
Proof.
  apply (constant_closes_no_trade 3 101 10 steady); [lia|].
  cbn. intros b Hb. repeat destruct Hb as [<-|Hb]; try reflexivity.
  destruct Hb.
Defined.

(** *** Two runs in one process *)

Lemma length_store (h : heap) (r : nat) (l : list Z) :
  length (store h r l) = length h.
Proof.
  revert r. induction h as [|x h IH]; intros [|r]; cbn; auto.
Qed.

Lemma deref_store_same (h : heap) (r : nat) (l : list Z) :
  (r < length h)%nat -> deref (store h r l) r = l.
Proof.
  unfold deref. revert r.
  induction h as [|x h IH]; intros [|r]; cbn; intros Hr; try lia; auto.
  apply IH. lia.
Qed.

Lemma deref_store_other (h : heap) (r r' : nat) (l : list Z) :
  r' <> r -> deref (store h r l) r' = deref h r'.
Proof.
  unfold deref. revert r r'.
  induction h as [|x h IH]; intros [|r] [|r']; cbn; intros Hne;
    try reflexivity; try contradiction.
  apply IH. congruence.
Qed.

(** A call of [next] on an instance does to its two lists what the
    function [analyzer_next] does to the two fields, and leaves every
    other list of the heap as it is. *)
Lemma analyzer_object_next_view (dt v : Z) (h : heap) (a : analyzer_object) :
  owns h a ->
  let s := analyzer_object_next dt v h a in
  analyzer_view (fst s) (snd s) = analyzer_next dt v (analyzer_view h a) /\
  owns (fst s) (snd s) /\
  length (fst s) = length h /\
  equity_ref (snd s) = equity_ref a /\ dates_ref (snd s) = dates_ref a /\
  forall r, r <> equity_ref a -> r <> dates_ref a ->
            deref (fst s) r = deref h r.
Proof.
  intros (He & Hd & Hne). cbv zeta.
  unfold analyzer_object_next, analyzer_next. cbn [last_date analyzer_view].
  destruct (match last_date_attr a with
            | Some last => negb (date dt =? date last)
            | None => true
            end); cbn [fst snd].
  - unfold append. refine (conj _ (conj _ (conj _ (conj _ (conj _ _))))).
    + unfold analyzer_view. cbn [equity_ref dates_ref last_date_attr].
      f_equal.
      * rewrite deref_store_other by exact Hne.
        apply deref_store_same. exact He.
      * rewrite deref_store_same by (rewrite length_store; exact Hd).
        rewrite deref_store_other by congruence. reflexivity.
    + unfold owns. cbn. rewrite !length_store. auto.
    + rewrite !length_store. reflexivity.
    + reflexivity.
    + reflexivity.
    + intros r Hre Hrd. rewrite !deref_store_other by assumption.
      reflexivity.
  - refine (conj _ (conj _ (conj _ (conj _ (conj _ _))))); auto.
    split; [exact He | split; [exact Hd | exact Hne]].
Qed.

Section EngineObjectFacts.
Context {B : Type} `{Broker B}.
Variable lookback : Z.

Lemma engine_object_step_view (h : heap) (e : engine_object B) (b : bar) :
  owns h (o_sampler e) ->
  match engine_object_step lookback h e b with
  | Ok s =>
      engine_step lookback (engine_view h e) b =
        Ok (engine_view (fst s) (snd s)) /\
      kept h e (fst s) (snd s)
  | Raise x => engine_step lookback (engine_view h e) b = Raise x
  end.
Proof.
  intros Hown.
  unfold engine_object_step, engine_step. cbn [engine_view delivered broker strat].
  destruct (next lookback _ _ _) as [r|x]; cbn [bind]; [|reflexivity].
  destruct (analyzer_object_next_view (DateTime b)
              (getvalue (o_broker e) (Close b)) h (o_sampler e) Hown)
    as (Hview & Hown' & Hlen & Heq & Hdt & Hframe).
  cbn [fst snd]. split.
  - unfold engine_view. cbn. rewrite Hview. reflexivity.
  - exact (conj Hown' (conj Hlen (conj Heq (conj Hdt Hframe)))).
Qed.

Lemma engine_object_run_view (bars : list bar) (h : heap)
    (e : engine_object B) :
  owns h (o_sampler e) ->
  match engine_object_run lookback bars h e with
  | Ok s =>
      engine_run lookback bars (engine_view h e) =
        Ok (engine_view (fst s) (snd s)) /\
      kept h e (fst s) (snd s)
  | Raise x => engine_run lookback bars (engine_view h e) = Raise x
  end.
Proof.
  revert h e. induction bars as [|b bars IH]; intros h e Hown; cbn.
  - split; [reflexivity|].
    refine (conj Hown (conj _ (conj _ (conj _ _)))); reflexivity.
  - pose proof (engine_object_step_view h e b Hown) as Hstep.
    destruct (engine_object_step lookback h e b) as [[h1 e1]|x]; cbn in *.
    + destruct Hstep as (E1 & Hown1 & Hlen1 & Heq1 & Hdt1 & Hfr1).
      rewrite E1. cbn.
      specialize (IH h1 e1 Hown1).
      destruct (engine_object_run lookback bars h1 e1) as [[h2 e2]|x];
        cbn in *; [|exact IH].
      destruct IH as (E2 & Hown2 & Hlen2 & Heq2 & Hdt2 & Hfr2).
      split; [exact E2|].
      refine (conj Hown2 (conj _ (conj _ (conj _ _)))); try congruence.
      intros r Hre Hrd. rewrite Hfr2 by congruence. apply Hfr1; assumption.
    + rewrite Hstep. reflexivity.
Qed.

(** A run of a fresh engine in any heap computes what the loop
    computes from [engine_init], in two lists that did not exist
    before, and changes no list that did. *)
Lemma run_fresh_view (bars : list bar) (b0 : B) (h h' : heap)
    (e : engine_object B) :
  run_fresh lookback bars b0 h = Ok (h', e) ->
  engine_run lookback bars (engine_init b0) = Ok (engine_view h' e) /\
  (length h <= equity_ref (o_sampler e))%nat /\
  (length h <= dates_ref (o_sampler e))%nat /\
  owns h' (o_sampler e) /\
  forall r, (r < length h)%nat -> deref h' r = deref h r.
Proof.
  unfold run_fresh, engine_object_new, analyzer_new, new_list.
  set (h0 := (h ++ [[]]) ++ [[]]).
  set (e0 := {| o_broker := b0; o_strat := strategy_init;
                o_sampler := {| equity_ref := length h;
                                dates_ref := length (h ++ [[]]);
                                last_date_attr := None |};
                o_delivered := []; o_submitted := []; o_fills := [] |}).
  assert (Hlen0 : length h0 = (length h + 2)%nat)
    by (unfold h0; rewrite !length_app; cbn; lia).
  assert (Hown0 : owns h0 (o_sampler e0)).
  { unfold owns, e0. cbn. rewrite Hlen0, length_app. cbn. lia. }
  assert (Hview0 : engine_view h0 e0 = engine_init b0).
  { unfold engine_view, engine_init, analyzer_view, analyzer_init, e0, deref.
    cbn. f_equal. f_equal.
    - unfold h0. rewrite app_nth1 by (rewrite length_app; cbn; lia).
      rewrite app_nth2, Nat.sub_diag by lia. reflexivity.
    - unfold h0. rewrite app_nth2, Nat.sub_diag by lia. reflexivity. }
  pose proof (engine_object_run_view bars h0 e0 Hown0) as Hrun.
  destruct (engine_object_run lookback bars h0 e0) as [[h1 e1]|x];
    [|discriminate].
  intros [= <- <-]. cbn in Hrun.
  destruct Hrun as (E & Hown1 & Hlen1 & Heq1 & Hdt1 & Hfr1).
  rewrite Hview0 in E. split; [exact E|].
  rewrite Heq1, Hdt1. unfold e0. cbn. rewrite length_app. cbn.
  refine (conj _ (conj _ (conj Hown1 _))); try lia.
  intros r Hr. rewrite Hfr1 by (unfold e0; cbn; rewrite ?length_app; cbn; lia).
  unfold deref, h0. rewrite <- app_assoc. apply app_nth1. exact Hr.
Qed.
End EngineObjectFacts.

(** C6.  Two runs of a freshly constructed engine over the same bars,
    started in any two states of the process, and in particular one
    after the other, end with the same final portfolio value and the
    same dates and equity.  Each run builds its two lists anew: a run
    changes no list that existed before it, so the lists that an
    earlier run returned are distinct from those of a later run and
    keep their content. *)
Theorem fresh_runs_agree {B : Type} `{Broker B}
    (lookback : Z) (bars : list bar) (b0 : B)
    (ha hb ha' hb' : heap) (ea eb : engine_object B) :
  run_fresh lookback bars b0 ha = Ok (ha', ea) ->
  run_fresh lookback bars b0 hb = Ok (hb', eb) ->
  final_value (engine_view ha' ea) = final_value (engine_view hb' eb) /\
  deref ha' (dates_ref (o_sampler ea)) = deref hb' (dates_ref (o_sampler eb)) /\
  deref ha' (equity_ref (o_sampler ea)) =
    deref hb' (equity_ref (o_sampler eb)) /\
  (forall r, (r < length hb)%nat -> deref hb' r = deref hb r) /\
  (hb = ha' ->
     dates_ref (o_sampler eb) <> dates_ref (o_sampler ea) /\
     equity_ref (o_sampler eb) <> equity_ref (o_sampler ea) /\
     deref hb' (dates_ref (o_sampler ea)) =
       deref ha' (dates_ref (o_sampler ea)) /\
     deref hb' (equity_ref (o_sampler ea)) =
       deref ha' (equity_ref (o_sampler ea))).
Proof.
  intros Ra Rb.
  destruct (run_fresh_view lookback bars b0 ha ha' ea Ra)
    as (Ea & _ & _ & (Hae & Had & _) & _).
  destruct (run_fresh_view lookback bars b0 hb hb' eb Rb)
    as (Eb & Hbe & Hbd & _ & Hframe).
  assert (Hsame : engine_view ha' ea = engine_view hb' eb) by congruence.
  repeat apply conj.
  - rewrite Hsame. reflexivity.
  - change (dates (sampler (engine_view ha' ea)) =
            dates (sampler (engine_view hb' eb))).
    rewrite Hsame. reflexivity.
  - change (equity (sampler (engine_view ha' ea)) =
            equity (sampler (engine_view hb' eb))).
    rewrite Hsame. reflexivity.
  - exact Hframe.
  - intros ->. repeat apply conj; try lia; apply Hframe; assumption.
Qed.

Lemma fresh_runs_agree_witness :
  match run_fresh 3 scenario (account_init 100) [[7; 7]] with
  | Ok (h1, e1) =>
      match run_fresh 3 scenario (account_init 100) h1 with
      | Ok (h2, e2) =>
          final_value (engine_view h1 e1) = final_value (engine_view h2 e2) /\
          deref h1 (dates_ref (o_sampler e1)) =
            deref h2 (dates_ref (o_sampler e2)) /\
          deref h1 (equity_ref (o_sampler e1)) =
            deref h2 (equity_ref (o_sampler e2)) /\
          deref h2 (dates_ref (o_sampler e1)) =
            deref h1 (dates_ref (o_sampler e1))
      | Raise _ => False
      end
  | Raise _ => False
  end.
Proof.
  destruct (run_fresh 3 scenario (account_init 100) [[7; 7]])
    as [[h1 e1]|x] eqn:E1; [|vm_compute in E1; discriminate].
  destruct (run_fresh 3 scenario (account_init 100) h1)
    as [[h2 e2]|x] eqn:E2.
  - destruct (fresh_runs_agree 3 scenario (account_init 100)
                [[7; 7]] h1 h1 h2 e1 e2 E1 E2)
      as (Hv & Hd & He & _ & Hafter).
    destruct (Hafter eq_refl) as (_ & _ & Hkeep & _).
    repeat split; assumption.
  - exfalso. vm_compute in E1. injection E1 as <- <-.
    vm_compute in E2. discriminate.
Defined.

(** C2.  On bars closing at 10, 10, 10, 11 and 9, with a lookback of 3
    and a starting cash of 100 on the broker of the specification:
    nothing is submitted over the bars 0 to 2; the run ends with
    exactly two orders, a buy at bar 3 and a close at bar 4, filled at
    11 and at 9; the final cash is 98 and the final position is flat. *)
Theorem scenario_run (bars : list bar) :
  map Close bars = [10; 10; 10; 11; 9] ->
  exists e3 e,
    backtest 3 100 (firstn 3 bars) = Ok e3 /\
    submitted e3 = [] /\ fills e3 = [] /\
    backtest 3 100 bars = Ok e /\
    submitted e = [(3%nat, Buy); (4%nat, ClosePos)] /\
    fills e = [Fill 3 Buy 11; Fill 4 ClosePos 9] /\
    cash (broker e) = 98 /\ size (broker e) = 0.
Proof.
  intros Hc.
  destruct bars as [|[t0 o0 h0 l0 c0 v0] [|[t1 o1 h1 l1 c1 v1]
    [|[t2 o2 h2 l2 c2 v2] [|[t3 o3 h3 l3 c3 v3]
    [|[t4 o4 h4 l4 c4 v4] [|b5 bars]]]]]]; try discriminate Hc.
  cbn in Hc. injection Hc as -> -> -> -> ->.
  match goal with
  | |- exists e3 e, backtest 3 100 (firstn 3 ?bs) = _ /\ _ =>
      destruct (summary_Some (backtest 3 100 (firstn 3 bs)) [] []
                  (account_init 100)) as (e3 & E3 & S3 & F3 & _);
        [vm_compute; reflexivity|];
      destruct (summary_Some (backtest 3 100 bs)
                  [(3%nat, Buy); (4%nat, ClosePos)]
                  [Fill 3 Buy 11; Fill 4 ClosePos 9]
                  {| cash := 98; size := 0 |}) as (e & E & S & F & Hb);
        [vm_compute; reflexivity|]
  end.
  exists e3, e. rewrite Hb. repeat split; assumption.
Qed.

Lemma scenario_run_witness :
  exists e3 e,
    backtest 3 100 (firstn 3 scenario) = Ok e3 /\
    submitted e3 = [] /\ fills e3 = [] /\
    backtest 3 100 scenario = Ok e /\
    submitted e = [(3%nat, Buy); (4%nat, ClosePos)] /\
    fills e = [Fill 3 Buy 11; Fill 4 ClosePos 9] /\
    cash (broker e) = 98 /\ size (broker e) = 0.
Proof. apply (scenario_run scenario). reflexivity. Defined.

Lemma engine_run_prefix {B : Type} `{Broker B} (lookback : Z)
    (bars : list bar) (e0 e : engine B) (n : nat) :
  engine_run lookback bars e0 = Ok e ->
  exists en, engine_run lookback (firstn n bars) e0 = Ok en.
Proof.
  rewrite <- (firstn_skipn n bars) at 1. rewrite engine_run_app.
  destruct (engine_run lookback (firstn n bars) e0) as [en|x]; cbn;
    [|discriminate].
  intros _. exists en. reflexivity.
Qed.

(** *** Orders resolved against the next bar *)

Section NextBarFacts.
Variable accept : account -> nat * side -> list bar -> bool.
Variable lookback : Z.



End NextBarFacts.





(** C5.  On the broker of the specification, the value reported at any
    point of a run is cash plus position size times the last close:
    this holds after every prefix of the bars, hence after every fill,
    and every equity sample is the cash plus the position size times
    the close of the bar at which it was taken, for the account as it
    stood when that bar was reached. *)
Theorem value_is_cash_plus_position (lookback starting_cash : Z)
    (bars : list bar) (e : engine account) :
  backtest lookback starting_cash bars = Ok e ->
  (forall n, exists en,
     backtest lookback starting_cash (firstn n bars) = Ok en /\
     final_value en =
       cash (broker en) + size (broker en) * last (map Close (firstn n bars)) 0) /\
  (forall k dt v,
     nth_error (dates (sampler e)) k = Some dt ->
     nth_error (equity (sampler e)) k = Some v ->
     exists i b ei,
       nth_error bars i = Some b /\ DateTime b = dt /\
       backtest lookback starting_cash (firstn i bars) = Ok ei /\
       v = cash (broker ei) + size (broker ei) * Close b).
Proof.
  intros Hr. split.
  - intros n.
    destruct (engine_run_prefix lookback bars _ e n Hr) as (en & En).
    exists en. split; [exact En|].
    unfold final_value.
    rewrite (engine_run_delivered lookback _ _ _ En). reflexivity.
  - apply (run_samples lookback _ bars e Hr).
Qed.

Lemma value_is_cash_plus_position_witness :
  exists e,
    backtest 3 100 scenario = Ok e /\
    (forall n, exists en,
       backtest 3 100 (firstn n scenario) = Ok en /\
       final_value en =
         cash (broker en) + size (broker en) * last (map Close (firstn n scenario)) 0) /\
    (forall k dt v,
       nth_error (dates (sampler e)) k = Some dt ->
       nth_error (equity (sampler e)) k = Some v ->
       exists i b ei,
         nth_error scenario i = Some b /\ DateTime b = dt /\
         backtest 3 100 (firstn i scenario) = Ok ei /\
         v = cash (broker ei) + size (broker ei) * Close b).
Proof.
  destruct (summary_Some (backtest 3 100 scenario)
              [(3%nat, Buy); (4%nat, ClosePos)]
              [Fill 3 Buy 11; Fill 4 ClosePos 9]
              {| cash := 98; size := 0 |}) as (e & E & _);
    [vm_compute; reflexivity|].
  exists e. split; [exact E|].
  apply (value_is_cash_plus_position 3 100 scenario e E).
Defined.

(** ** The analyzer *)

Lemma analyzer_run_snoc (obs : list (Z * Z)) (o : Z * Z) (a : analyzer) :
  analyzer_run (obs ++ [o]) a =
  analyzer_next (fst o) (snd o) (analyzer_run obs a).
Proof. unfold analyzer_run. rewrite fold_left_app. reflexivity. Qed.

Lemma sorted_snoc (l : list Z) (x : Z) :
  StronglySorted Z.le (l ++ [x]) ->
  StronglySorted Z.le l /\ Forall (fun y => y <= x) l.
Proof.
  induction l as [|a l IH]; cbn; intros Hs.
  - split; constructor.
  - inversion Hs as [|a' l' Hs' Hall]; subst.
    destruct (IH Hs') as (Hl & Hle).
    apply Forall_app in Hall as (Hal & Hax).
    split; constructor; try assumption.
    now inversion Hax.
Qed.

Lemma date_mono (s t : Z) : s <= t -> date s <= date t.
Proof. intros Hst. unfold date. apply Z.div_le_mono; lia. Qed.

(** What holds of the analyzer after any time-ordered observations. *)
Lemma analyzer_run_invariant (obs : list (Z * Z)) :
  StronglySorted Z.le (map fst obs) ->
  let a := analyzer_run obs analyzer_init in
  length (dates a) = length (equity a) /\
  (last_date a = None -> obs = []) /\
  (forall ld, last_date a = Some ld ->
     In ld (dates a) /\
     forall t, In t (map fst obs) -> date t <= date ld) /\
  (forall d, In d (map date (map fst obs)) <-> In d (map date (dates a))) /\
  NoDup (map date (dates a)) /\
  (forall k dt v,
     nth_error (dates a) k = Some dt ->
     nth_error (equity a) k = Some v ->
     exists i,
       nth_error obs i = Some (dt, v) /\
       forall j o, (j < i)%nat -> nth_error obs j = Some o ->
                   date (fst o) <> date dt).
Proof.
  induction obs as [|[dt v] obs IH] using rev_ind; intros Hs; cbv zeta.
  - cbn. repeat split; try tauto; try discriminate; try constructor.
    intros [|k] dt v; discriminate.
  - rewrite map_app in Hs. cbn in Hs.
    apply sorted_snoc in Hs as (Hs & Hle).
    specialize (IH Hs). cbv zeta in IH.
    rewrite analyzer_run_snoc. cbn [fst snd].
    set (a := analyzer_run obs analyzer_init) in *.
    destruct IH as (Hlen & Hnone & Hsome & Hdates & Hnd & Hsam).
    assert (Hold : forall k dt' v',
      nth_error (dates a) k = Some dt' -> nth_error (equity a) k = Some v' ->
      exists i,
        nth_error (obs ++ [(dt, v)]) i = Some (dt', v') /\
        forall j o, (j < i)%nat -> nth_error (obs ++ [(dt, v)]) j = Some o ->
                    date (fst o) <> date dt').
    { intros k dt' v' Hk Hv.
      destruct (Hsam k dt' v' Hk Hv) as (i & Hi & Hfirst).
      assert (Hlt : (i < length obs)%nat) by (apply nth_error_Some; congruence).
      exists i. split; [rewrite nth_error_app1; assumption|].
      intros j o Hj Ho. rewrite nth_error_app1 in Ho by lia.
      eapply Hfirst; eassumption. }
    assert (Hfresh :
      (forall ld, last_date a = Some ld -> date dt <> date ld) ->
      forall t, In t (map fst obs) -> date t < date dt).
    { intros Hne t Ht.
      destruct (last_date a) as [ld|] eqn:El.
      - destruct (Hsome ld eq_refl) as (Hin & Hbound).
        specialize (Hne ld eq_refl).
        assert (Hld : date ld <= date dt).
        { apply date_mono.
          assert (Hd : In (date ld) (map date (map fst obs)))
            by (apply Hdates, in_map, Hin).
          rewrite Forall_forall in Hle.
          apply in_map_iff in Hd as (t' & Ht' & Hin').
          pose proof (Hbound t' Hin') as Hb.
          pose proof (Hle t' Hin') as Hl.
          destruct (Z.le_gt_cases ld dt) as [?|Hgt]; [assumption|].
          exfalso. apply Hne.
          apply Z.le_antisymm; [|rewrite <- Ht'; now apply date_mono].
          apply date_mono. lia. }
        specialize (Hbound t Ht). lia.
      - rewrite (Hnone eq_refl) in Ht. destruct Ht. }
    unfold analyzer_next. cbv zeta.
    destruct (match last_date a with
              | Some last => negb (date dt =? date last)
              | None => true
              end) eqn:Enew.
    + (* a new day: the observation is sampled *)
      assert (Hlt : forall t, In t (map fst obs) -> date t < date dt).
      { apply Hfresh. intros ld El. rewrite El in Enew.
        apply negb_true_iff, Z.eqb_neq in Enew. exact Enew. }
      cbn. repeat apply conj.
      * rewrite !length_app. cbn. lia.
      * discriminate.
      * intros ld [= <-]. split; [apply in_or_app; right; now left|].
        intros t Ht.
        rewrite map_app in Ht. apply in_app_or in Ht as [Ht|[<-|[]]];
          [specialize (Hlt t Ht) |]; cbn; lia.
      * intros d. rewrite !map_app. cbn. split; intros Hd;
          apply in_or_app; apply in_app_or in Hd as [Hd|Hd];
          try (left; now apply Hdates); right; exact Hd.
      * rewrite map_app. cbn.
        apply NoDup_app; [exact Hnd | repeat constructor; intros [] |].
        intros d Hd [<-|[]]. apply Hdates in Hd.
        apply in_map_iff in Hd as (t & Ht & Hin).
        specialize (Hlt t Hin). lia.
      * intros k dt' v' Hk Hv.
        destruct (Nat.lt_ge_cases k (length (dates a))) as [Hk'|Hk'].
        -- rewrite nth_error_app1 in Hk by assumption.
           rewrite nth_error_app1 in Hv by lia.
           eapply Hold; eassumption.
        -- rewrite nth_error_app2 in Hk by assumption.
           rewrite nth_error_app2 in Hv by lia.
           rewrite <- Hlen in Hv.
           destruct (k - length (dates a))%nat as [|k'];
             [|destruct k'; discriminate].
           cbn in Hk, Hv. injection Hk as <-. injection Hv as <-.
           exists (length obs). split.
           ++ rewrite nth_error_app2, Nat.sub_diag; [reflexivity | lia].
           ++ intros j o Hj Ho. rewrite nth_error_app1 in Ho by assumption.
              assert (Hin : In (fst o) (map fst obs))
                by (apply in_map; eapply nth_error_In; eassumption).
              specialize (Hlt _ Hin). lia.
    + (* the day of the last sample: nothing is recorded *)
      destruct (last_date a) as [ld|] eqn:El; [|discriminate].
      apply negb_false_iff, Z.eqb_eq in Enew.
      destruct (Hsome ld eq_refl) as (Hin & Hbound).
      repeat apply conj.
      * exact Hlen.
      * discriminate.
      * intros ld' [= <-]. split; [exact Hin|].
        intros t Ht.
        rewrite map_app in Ht. apply in_app_or in Ht as [Ht|[<-|[]]];
          [now apply Hbound | cbn; lia].
      * intros d. rewrite !map_app. cbn. split; intros Hd.
        -- apply in_app_or in Hd as [Hd|[<-|[]]]; [now apply Hdates|].
           rewrite Enew. apply in_map, Hin.
        -- apply in_or_app. left. now apply Hdates.
      * exact Hnd.
      * exact Hold.
Qed.

(** C4.  Over bars in time order, the analyzer records exactly one
    sample per calendar date that occurs: the dates of the samples are
    pairwise distinct and are the dates of the bars; and each sample
    is the datetime and the broker value observed at the first bar of
    its date. *)
Theorem one_sample_per_day (obs : list (Z * Z)) :
  StronglySorted Z.le (map fst obs) ->
  let a := analyzer_run obs analyzer_init in
  length (dates a) = length (equity a) /\
  NoDup (map date (dates a)) /\
  (forall d, In d (map date (map fst obs)) <-> In d (map date (dates a))) /\
  (forall k dt v,
     nth_error (dates a) k = Some dt ->
     nth_error (equity a) k = Some v ->
     exists i,
       nth_error obs i = Some (dt, v) /\
       forall j o, (j < i)%nat -> nth_error obs j = Some o ->
                   date (fst o) <> date dt).
Proof.
  intros Hs.
  destruct (analyzer_run_invariant obs Hs) as (Hlen & _ & _ & Hd & Hnd & Hsam).
  cbv zeta. repeat apply conj; assumption.
Qed.

Lemma one_sample_per_day_witness :
  StronglySorted Z.le (map fst three_days) /\
  get_analysis (analyzer_run three_days analyzer_init) =
    ([1651104000; 1651190400; 1651276800], [101; 103; 104]) /\
  NoDup (map date (dates (analyzer_run three_days analyzer_init))).
Proof.
  assert (Hs : StronglySorted Z.le (map fst three_days)).
  { cbn. repeat (constructor; [|repeat constructor; lia]). constructor. }
  split; [exact Hs|]. split; [vm_compute; reflexivity|].
  destruct (one_sample_per_day three_days Hs) as (_ & Hnd & _).
  exact Hnd.
Defined.

(** Without the time order the analyzer samples a date again when it
    comes back: three samples for two dates. *)
Remark returning_day_sampled_again :
  get_analysis
    (analyzer_run [(1651104000, 1); (1651190400, 2); (1651118400, 3)]
                  analyzer_init) =
  ([1651104000; 1651190400; 1651118400], [1; 2; 3]) /\
  date 1651104000 = date 1651118400.
Proof. split; vm_compute; reflexivity. Qed.

(** ** The data fetch and the driver *)


Section FetchFacts.
Context `{Pandas}.
Variable requests_get : query -> reply.

(** From an unusable reply the [try] block raises an exception that
    one of the two [except] clauses catches. *)
Lemma ohlcv_try_unusable (symbol : string) (resolution start stop : Z) :
  feed_unusable
    (requests_get {| q_symbol := symbol; q_resolution := resolution;
                     q_from := start; q_to := stop |}) = true ->
  exists e,
    ohlcv_try requests_get symbol resolution start stop = Raise e /\
    (is_RequestException e || is_ValueError e) = true.
Proof.
  unfold ohlcv_try, feed_unusable.
  destruct (requests_get _) as [|status body].
  - intros _. exists RequestException. split; reflexivity.
  - unfold raise_for_status.
    destruct ((400 <=? status) && (status <? 600)); cbn.
    + intros _. exists HTTPError. split; reflexivity.
    + destruct body as [data|]; cbn.
      * destruct data as [ | b | n | s | items | members]; cbn;
          try discriminate.
        destruct (truthy (member "t" members)); cbn.
        -- destruct (member "s" members) as [s|]; cbn; [|discriminate].
           intros ->. exists ValueError. split; reflexivity.
        -- intros _. exists ValueError. split; reflexivity.
      * intros _. exists JSONDecodeError. split; reflexivity.
Qed.

(** What [ohlcv] does with such an exception: one line is printed and
    an empty frame is returned. *)
Lemma ohlcv_unusable (symbol : string) (resolution start stop : Z) :
  feed_unusable
    (requests_get {| q_symbol := symbol; q_resolution := resolution;
                     q_from := start; q_to := stop |}) = true ->
  exists line,
    ohlcv requests_get symbol resolution start stop =
      Ok (empty_frame, [line]).
Proof.
  intros Hu.
  destruct (ohlcv_try_unusable symbol resolution start stop Hu)
    as (e & E & Hc).
  unfold ohlcv. rewrite E.
  destruct (is_RequestException e); [eexists; reflexivity|].
  cbn in Hc. rewrite Hc. eexists; reflexivity.
Qed.
End FetchFacts.

(** C10.  [ohlcv] lets an exception through: a reply with status 200
    whose JSON object has a non-empty ['t'] and no ['s'] makes
    [data['s']] raise [KeyError], which neither [except] clause
    catches. *)
Theorem ohlcv_missing_status_raises `{Pandas} :
  ohlcv (fun _ => Reply 200 (Some (JObj [("t"%string, JArr [JNum 1651104000])])))
        "btcusdt" 240 1651104000 1745798400
  = Raise (KeyError "s").
Proof. reflexivity. Qed.

(** A reply whose body is a JSON array has no [get]: the
    [AttributeError] is not caught either. *)
Remark ohlcv_array_body_raises `{Pandas} :
  ohlcv (fun _ => Reply 200 (Some (JArr [])))
        "btcusdt" 240 1651104000 1745798400
  = Raise AttributeError.
Proof. reflexivity. Qed.

(** On a well-formed reply the stand-in for pandas builds the rows from
    the six arrays. *)
Remark ohlcv_well_formed :
  ohlcv (fun _ => Reply 200 (Some (JObj
           [("s"%string, JStr "ok");
            ("t"%string, JArr [JNum 1651104000; JNum 1651118400]);
            ("o"%string, JArr [JNum 10; JNum 10]);
            ("h"%string, JArr [JNum 12; JNum 11]);
            ("l"%string, JArr [JNum 9; JNum 10]);
            ("c"%string, JArr [JNum 10; JNum 11]);
            ("v"%string, JArr [JNum 5; JNum 7])])))
        "btcusdt" 240 1651104000 1745798400
  = Ok (Table [Bar 1651104000 10 12 9 10 5; Bar 1651118400 10 11 10 11 7],
        []).
Proof. vm_compute. reflexivity. Qed.

(** On a frame with the six columns the feed of [run_backtest] starts
    and delivers the rows as they are. *)
Lemma feed_start_table (rows : list bar) :
  feed_start (feed_of (Table rows)) = Ok rows.
Proof.
  unfold feed_start. cbn. f_equal.
  induction rows as [|[t o h l c v] rows IH]; cbn; [reflexivity|].
  f_equal. exact IH.
Qed.



(** * Further properties of the source *)

(** ** [FiveBarStrategy.next] *)

Lemma line_get_nth (line : list Z) (ago x : Z) :
  line_get line ago = Ok x ->
  0 <= Z.of_nat (length line) - 1 + ago /\
  nth_error line (Z.to_nat (Z.of_nat (length line) - 1 + ago)) = Some x.
Proof.
  unfold line_get. cbv zeta.
  destruct (Z.ltb_spec (Z.of_nat (length line) - 1 + ago) 0); [discriminate|].
  destruct (nth_error line _) as [y|] eqn:E; [|discriminate].
  intros [= <-]. split; [assumption | reflexivity].
Qed.

Lemma line_get_current (line : list Z) (c0 : Z) :
  line_get line 0 = Ok c0 -> exists earlier, line = earlier ++ [c0].
Proof.
  intros Hg. apply line_get_nth in Hg as (Hpos & Hn).
  destruct (exists_last (l := line)) as (earlier & c & ->).
  { intros ->. cbn in Hpos. lia. }
  exists earlier. f_equal.
  rewrite length_app in Hn. cbn in Hn.
  rewrite nth_error_app2 in Hn by lia.
  replace (Z.to_nat (Z.of_nat (length earlier + 1) - 1 + 0) - length earlier)%nat
    with 0%nat in Hn by lia.
  cbn in Hn. congruence.
Qed.

Lemma line_get_map (f : Z -> Z) (line : list Z) (ago : Z) :
  line_get (map f line) ago =
  match line_get line ago with
  | Ok x => Ok (f x)
  | Raise e => Raise e
  end.
Proof.
  unfold line_get. cbv zeta. rewrite length_map.
  destruct (Z.of_nat (length line) - 1 + ago <? 0); [reflexivity|].
  rewrite nth_error_map.
  destruct (nth_error line _); reflexivity.
Qed.

(** Every way in which [next] returns. *)
Lemma next_inv (lookback : Z) (dataclose : list Z) (position : Z)
    (self self' : strategy) (evs : list event) :
  next lookback dataclose position self = Ok (self', evs) ->
  (self' = self /\ evs = []) \/
  exists c0 cl,
    line_get dataclose 0 = Ok c0 /\
    line_get dataclose (- lookback) = Ok cl /\
    ((position = 0 /\ c0 - cl > 0 /\ self' = {| order := Some Buy |} /\
      evs = [Log (BuyCreate c0); Submit Buy]) \/
     (position = 0 /\ c0 - cl < 0 /\ self' = {| order := Some Sell |} /\
      evs = [Log (SellCreate c0); Submit Sell]) \/
     (((position > 0 /\ c0 - cl < 0) \/ (position < 0 /\ c0 - cl > 0)) /\
      self' = self /\ evs = [Log (ClosePosition c0); Submit ClosePos])).
Proof.
  unfold next.
  destruct (Z.of_nat (length dataclose) <=? lookback).
  { intros [= <- <-]. left. split; reflexivity. }
  destruct (line_get dataclose 0) as [c0|x]; cbn; [|discriminate].
  destruct (line_get dataclose (- lookback)) as [cl|x]; cbn; [|discriminate].
  destruct (Z.eqb_spec position 0) as [Hp|Hp].
  - destruct (Z.gtb_spec (c0 - cl) 0) as [Hd|Hd].
    + intros [= <- <-]. right. exists c0, cl.
      repeat split. left. repeat split; try assumption; lia.
    + destruct (Z.ltb_spec (c0 - cl) 0) as [Hd'|Hd'].
      * intros [= <- <-]. right. exists c0, cl.
        repeat split. right. left. repeat split; assumption.
      * intros [= <- <-]. left. split; reflexivity.
  - destruct (Z.gtb_spec position 0) as [Hpp|Hpp];
      destruct (Z.ltb_spec position 0) as [Hpn|Hpn];
      destruct (Z.gtb_spec (c0 - cl) 0) as [Hd|Hd];
      destruct (Z.ltb_spec (c0 - cl) 0) as [Hd'|Hd']; cbn;
      intros [= <- <-]; try (left; split; reflexivity);
      right; exists c0, cl; repeat split; right; right;
      repeat split; try reflexivity; lia.
Qed.

(** X1.  With a lookback that is not negative [next] never fails: the
    guard on the number of bars keeps the read of the close [lookback]
    bars back inside the bars delivered, also on an empty feed. *)
Theorem next_never_fails (lookback : Z) (dataclose : list Z) (position : Z)
    (self : strategy) :
  0 <= lookback ->
  exists self' evs, next lookback dataclose position self = Ok (self', evs).
Proof.
  intros H0.
  destruct (Z.le_gt_cases (Z.of_nat (length dataclose)) lookback) as [Hg|Hg].
  - rewrite next_guard by assumption. eauto.
  - destruct (next_past_guard lookback dataclose position self H0) as
      (c0 & cl & _ & _ & E); [lia|].
    rewrite E. cbv zeta.
    destruct (position =? 0);
      [destruct (c0 - cl >? 0); [|destruct (c0 - cl <? 0)]
      |destruct ((position >? 0) && (c0 - cl <? 0)
                 || (position <? 0) && (c0 - cl >? 0))]; eauto.
Qed.

Lemma next_never_fails_witness :
  exists self' evs, next 3 [] 0 strategy_init = Ok (self', evs).
Proof. apply (next_never_fails 3 [] 0 strategy_init). lia. Defined.

(** X2.  [next] never closes while flat, and while a position is open
    it neither buys nor sells: the only order it can send then is a
    close. *)
Theorem next_never_reverses (lookback : Z) (dataclose : list Z)
    (position : Z) (self self' : strategy) (evs : list event) :
  next lookback dataclose position self = Ok (self', evs) ->
  (position = 0 -> ~ In ClosePos (orders_of evs)) /\
  (position <> 0 ->
     ~ In Buy (orders_of evs) /\ ~ In Sell (orders_of evs)).
Proof.
  intros Hn.
  destruct (next_inv _ _ _ _ _ _ Hn) as
    [(-> & ->) | (c0 & cl & _ & _ &
       [(Hp & _ & _ & ->) | [(Hp & _ & _ & ->) | (Hp & _ & ->)]])];
    cbn; split; intros Hq; try split; intros Hin;
    repeat (destruct Hin as [Hin|Hin]; try discriminate); try lia;
    try contradiction.
Qed.

Lemma next_never_reverses_witness :
  (1 = 0 -> ~ In ClosePos [ClosePos]) /\
  (1 <> 0 -> ~ In Buy [ClosePos] /\ ~ In Sell [ClosePos]).
Proof.
  apply (next_never_reverses 3 [10; 10; 10; 9] 1 strategy_init strategy_init
           [Log (ClosePosition 9); Submit ClosePos]).
  reflexivity.
Defined.

(** X3.  Whenever [next] submits an order it has just logged it: the
    events of a call are either none, or one log line followed by one
    order of the same kind, and the price quoted is the close of the
    current bar, the last one delivered. *)
Theorem next_logs_then_submits (lookback : Z) (dataclose : list Z)
    (position : Z) (self self' : strategy) (evs : list event) :
  next lookback dataclose position self = Ok (self', evs) ->
  evs = [] \/
  exists earlier c0,
    dataclose = earlier ++ [c0] /\
    (evs = [Log (BuyCreate c0); Submit Buy] \/
     evs = [Log (SellCreate c0); Submit Sell] \/
     evs = [Log (ClosePosition c0); Submit ClosePos]).
Proof.
  intros Hn.
  destruct (next_inv _ _ _ _ _ _ Hn) as
    [(_ & ->) | (c0 & cl & E0 & _ & Hcase)]; [left; reflexivity|].
  right. destruct (line_get_current _ _ E0) as (earlier & ->).
  exists earlier, c0. split; [reflexivity|].
  destruct Hcase as [(_ & _ & _ & ->) | [(_ & _ & _ & ->) | (_ & _ & ->)]];
    auto.
Qed.

Lemma next_logs_then_submits_witness :
  [Log (BuyCreate 11); Submit Buy] = [] \/
  exists earlier c0,
    [10; 10; 10; 11] = earlier ++ [c0] /\
    ([Log (BuyCreate 11); Submit Buy] = [Log (BuyCreate c0); Submit Buy] \/
     [Log (BuyCreate 11); Submit Buy] = [Log (SellCreate c0); Submit Sell] \/
     [Log (BuyCreate 11); Submit Buy] =
       [Log (ClosePosition c0); Submit ClosePos]).
Proof.
  apply (next_logs_then_submits 3 [10; 10; 10; 11] 0 strategy_init
           {| order := Some Buy |} [Log (BuyCreate 11); Submit Buy]).
  reflexivity.
Defined.

(** X4.  [self.order] remembers opening orders only: after a call that
    buys or sells it holds that order, and after any other call, a
    close included, it is what it was. *)
Theorem next_order_attribute (lookback : Z) (dataclose : list Z)
    (position : Z) (self self' : strategy) (evs : list event) :
  next lookback dataclose position self = Ok (self', evs) ->
  (orders_of evs = [Buy] /\ order self' = Some Buy) \/
  (orders_of evs = [Sell] /\ order self' = Some Sell) \/
  ((orders_of evs = [] \/ orders_of evs = [ClosePos]) /\ self' = self).
Proof.
  intros Hn.
  destruct (next_inv _ _ _ _ _ _ Hn) as
    [(-> & ->) | (c0 & cl & _ & _ &
       [(_ & _ & -> & ->) | [(_ & _ & -> & ->) | (_ & -> & ->)]])];
    cbn; auto.
Qed.

Lemma next_order_attribute_witness :
  (orders_of [Log (ClosePosition 9); Submit ClosePos] = [Buy] /\
   order {| order := Some Buy |} = Some Buy) \/
  (orders_of [Log (ClosePosition 9); Submit ClosePos] = [Sell] /\
   order {| order := Some Buy |} = Some Sell) \/
  ((orders_of [Log (ClosePosition 9); Submit ClosePos] = [] \/
    orders_of [Log (ClosePosition 9); Submit ClosePos] = [ClosePos]) /\
   {| order := Some Buy |} = {| order := Some Buy |}).
Proof.
  apply (next_order_attribute 3 [10; 10; 10; 9] 1 {| order := Some Buy |}
           {| order := Some Buy |} [Log (ClosePosition 9); Submit ClosePos]).
  reflexivity.
Defined.

Lemma line_get_agree (d1 d2 : list Z) (ago : Z) :
  length d1 = length d2 ->
  nth_error d1 (Z.to_nat (Z.of_nat (length d1) - 1 + ago)) =
  nth_error d2 (Z.to_nat (Z.of_nat (length d2) - 1 + ago)) ->
  line_get d1 ago = line_get d2 ago.
Proof.
  intros Hlen Hn. unfold line_get. cbv zeta. rewrite Hn, Hlen. reflexivity.
Qed.

(** X5.  A call of [next] reads two closes only, the current one and
    the one [lookback] bars back: on two feeds of the same length that
    agree on these two bars it does the same, whatever the bars in
    between and before. *)
Theorem next_reads_two_closes (lookback : Z) (d1 d2 : list Z) (position : Z)
    (self : strategy) :
  0 <= lookback ->
  length d1 = length d2 ->
  nth_error d1 (length d1 - 1) = nth_error d2 (length d2 - 1) ->
  nth_error d1 (length d1 - 1 - Z.to_nat lookback) =
  nth_error d2 (length d2 - 1 - Z.to_nat lookback) ->
  next lookback d1 position self = next lookback d2 position self.
Proof.
  intros H0 Hlen Hcur Hback. unfold next.
  rewrite (line_get_agree d1 d2 0 Hlen),
          (line_get_agree d1 d2 (- lookback) Hlen), Hlen.
  - reflexivity.
  - replace (Z.to_nat (Z.of_nat (length d1) - 1 + - lookback))
      with (length d1 - 1 - Z.to_nat lookback)%nat by lia.
    replace (Z.to_nat (Z.of_nat (length d2) - 1 + - lookback))
      with (length d2 - 1 - Z.to_nat lookback)%nat by lia.
    exact Hback.
  - replace (Z.to_nat (Z.of_nat (length d1) - 1 + 0))
      with (length d1 - 1)%nat by lia.
    replace (Z.to_nat (Z.of_nat (length d2) - 1 + 0))
      with (length d2 - 1)%nat by lia.
    exact Hcur.
Qed.

Lemma next_reads_two_closes_witness :
  next 3 [10; 55; 7; 11] 0 strategy_init =
  next 3 [10; 10; 10; 11] 0 strategy_init.
Proof.
  apply (next_reads_two_closes 3 [10; 55; 7; 11] [10; 10; 10; 11] 0
           strategy_init); [lia | reflexivity | reflexivity | reflexivity].
Defined.

(** X6.  [next] treats long and short alike: on the feed with every
    close negated, the position negated and [self.order] mirrored, it
    decides the mirror image, a sell for a buy and a buy for a sell,
    and a close where it closed. *)
Theorem next_mirror (lookback : Z) (dataclose : list Z) (position : Z)
    (self : strategy) :
  decision (next lookback (map Z.opp dataclose) (- position)
                 {| order := option_map mirror (order self) |}) =
  mirror_decision (decision (next lookback dataclose position self)).
Proof.
  unfold next. rewrite length_map, !line_get_map.
  destruct (Z.of_nat (length dataclose) <=? lookback); [reflexivity|].
  destruct (line_get dataclose 0) as [c0|x]; cbn; [|reflexivity].
  destruct (line_get dataclose (- lookback)) as [cl|x]; cbn; [|reflexivity].
  destruct (Z.eqb_spec (- position) 0) as [Hp|Hp];
    destruct (Z.eqb_spec position 0) as [Hq|Hq]; try lia.
  - destruct (Z.gtb_spec (- c0 - - cl) 0) as [Hd|Hd];
      destruct (Z.ltb_spec (- c0 - - cl) 0) as [Hd'|Hd'];
      destruct (Z.gtb_spec (c0 - cl) 0) as [He|He];
      destruct (Z.ltb_spec (c0 - cl) 0) as [He'|He']; try lia; reflexivity.
  - destruct (Z.gtb_spec (- position) 0) as [Hpp|Hpp];
      destruct (Z.ltb_spec (- position) 0) as [Hpn|Hpn];
      destruct (Z.gtb_spec position 0) as [Hqp|Hqp];
      destruct (Z.ltb_spec position 0) as [Hqn|Hqn]; try lia;
      destruct (Z.gtb_spec (- c0 - - cl) 0) as [Hd|Hd];
      destruct (Z.ltb_spec (- c0 - - cl) 0) as [Hd'|Hd'];
      destruct (Z.gtb_spec (c0 - cl) 0) as [He|He];
      destruct (Z.ltb_spec (c0 - cl) 0) as [He'|He']; try lia; reflexivity.
Qed.

(** X7.  The decision of [next] does not depend on the unit or the
    origin of the prices: multiplying every close by a positive factor
    and adding a constant changes the prices quoted in the log and
    nothing else. *)
Theorem next_price_scale (lookback a k : Z) (dataclose : list Z)
    (position : Z) (self : strategy) :
  0 < a ->
  decision (next lookback (map (fun c => a * c + k) dataclose) position self) =
  decision (next lookback dataclose position self).
Proof.
  intros Ha. unfold next. rewrite length_map, !line_get_map.
  destruct (Z.of_nat (length dataclose) <=? lookback); [reflexivity|].
  destruct (line_get dataclose 0) as [c0|x]; cbn; [|reflexivity].
  destruct (line_get dataclose (- lookback)) as [cl|x]; cbn; [|reflexivity].
  replace (a * c0 + k - (a * cl + k)) with (a * (c0 - cl)) by lia.
  destruct (position =? 0);
    [|destruct (position >? 0); destruct (position <? 0)];
    destruct (Z.gtb_spec (a * (c0 - cl)) 0) as [Hd|Hd];
    destruct (Z.ltb_spec (a * (c0 - cl)) 0) as [Hd'|Hd'];
    destruct (Z.gtb_spec (c0 - cl) 0) as [He|He];
    destruct (Z.ltb_spec (c0 - cl) 0) as [He'|He']; try nia; reflexivity.
Qed.

Lemma next_price_scale_witness :
  decision (next 3 (map (fun c => 100 * c + 7) [10; 10; 10; 11]) 0
                 strategy_init) =
  decision (next 3 [10; 10; 10; 11] 0 strategy_init).
Proof.
  apply (next_price_scale 3 100 7 [10; 10; 10; 11] 0 strategy_init). lia.
Defined.

(** X8.  With a lookback of zero the strategy never trades: the close
    is compared with itself, the difference is zero at every bar, and
    nothing is submitted and nothing closed, whatever the position. *)
Theorem next_lookback_zero (dataclose : list Z) (position : Z)
    (self : strategy) :
  next 0 dataclose position self = Ok (self, []).
Proof.
  destruct (Z.le_gt_cases (Z.of_nat (length dataclose)) 0) as [Hg|Hg].
  - now apply next_guard.
  - destruct (line_get_in_range dataclose 0) as (c0 & E & _); [lia|].
    unfold next. change (- 0) with 0. rewrite E.
    destruct (Z.of_nat (length dataclose) <=? 0); [reflexivity|].
    cbn. rewrite Z.sub_diag. cbn. rewrite !andb_false_r. cbn.
    destruct (position =? 0); reflexivity.
Qed.

(** ** [EquityCurveAnalyzer] *)

Lemma analyzer_next_new_day (dt value : Z) (a : analyzer) :
  analyzer_next dt value a =
  if new_day (last_date a) dt
  then {| equity := equity a ++ [value]; dates := dates a ++ [dt];
          last_date := Some dt |}
  else a.
Proof. reflexivity. Qed.

(** From any state whose [last_date] falls on the day of the previous
    observation, the analyzer appends the day changes of what it
    observes. *)
Lemma analyzer_run_from (obs : list (Z * Z)) (a0 : analyzer) (prev : option Z) :
  (forall dt, new_day (last_date a0) dt = new_day prev dt) ->
  dates (analyzer_run obs a0) = dates a0 ++ map fst (day_changes prev obs) /\
  equity (analyzer_run obs a0) = equity a0 ++ map snd (day_changes prev obs).
Proof.
  revert a0 prev. induction obs as [|[dt v] obs IH]; intros a0 prev Hrel.
  - cbn. rewrite !app_nil_r. split; reflexivity.
  - cbn [analyzer_run fold_left day_changes fst snd].
    fold (analyzer_run obs (analyzer_next dt v a0)).
    rewrite analyzer_next_new_day, Hrel.
    destruct (new_day prev dt) eqn:Enew.
    + destruct (IH {| equity := equity a0 ++ [v]; dates := dates a0 ++ [dt];
                      last_date := Some dt |} (Some dt)) as (Hd & He);
        [reflexivity|].
      rewrite Hd, He. cbn. rewrite <- !app_assoc. split; reflexivity.
    + apply IH. intros dt'.
      rewrite <- Hrel in Enew.
      destruct (last_date a0) as [ld|]; [|discriminate].
      cbn in *. apply negb_false_iff, Z.eqb_eq in Enew.
      rewrite Enew. reflexivity.
Qed.

Lemma day_changes_incl (prev : option Z) (obs : list (Z * Z)) (o : Z * Z) :
  In o (day_changes prev obs) -> In o obs.
Proof.
  revert prev. induction obs as [|o' obs IH]; intros prev; cbn; [tauto|].
  destruct (new_day prev (fst o')); cbn; intros Hin.
  - destruct Hin as [->|Hin]; [now left | right; eapply IH; eassumption].
  - right. eapply IH; eassumption.
Qed.

Lemma day_changes_length (prev : option Z) (obs : list (Z * Z)) :
  (length (day_changes prev obs) <= length obs)%nat.
Proof.
  revert prev. induction obs as [|o obs IH]; intros prev; cbn; [lia|].
  destruct (new_day prev (fst o)); cbn; specialize (IH (Some (fst o))); lia.
Qed.

Lemma combine_fst_snd (l : list (Z * Z)) :
  combine (map fst l) (map snd l) = l.
Proof.
  induction l as [|[x y] l IH]; cbn; [reflexivity | now rewrite IH].
Qed.

(** The last entry of [dates] is [last_date], after any observations. *)
Lemma analyzer_run_last (obs : list (Z * Z)) :
  let a := analyzer_run obs analyzer_init in
  match last_date a with
  | None => obs = [] /\ dates a = []
  | Some ld =>
      (exists ds, dates a = ds ++ [ld]) /\
      exists earlier o, obs = earlier ++ [o] /\ date ld = date (fst o)
  end.
Proof.
  induction obs as [|[dt v] obs IH] using rev_ind; cbv zeta in *.
  - cbn. split; reflexivity.
  - rewrite analyzer_run_snoc, analyzer_next_new_day. cbn [fst snd].
    destruct (new_day (last_date (analyzer_run obs analyzer_init)) dt) eqn:En.
    + cbn. split; [eexists; reflexivity|].
      exists obs, (dt, v). split; reflexivity.
    + destruct (last_date (analyzer_run obs analyzer_init)) as [ld|];
        [|discriminate].
      cbn in En. apply negb_false_iff, Z.eqb_eq in En.
      destruct IH as (Hds & _). split; [exact Hds|].
      exists obs, (dt, v). split; [reflexivity | cbn; congruence].
Qed.

(** X9.  Whatever the order of the bars, the analyzer records exactly
    the observations at which the calendar date changes: the first
    one, and every one whose date differs from the date of the
    observation just before it.  Comparing with the last sampled
    datetime, as the code does, selects the same observations. *)
Theorem analyzer_records_day_changes (obs : list (Z * Z)) :
  get_analysis (analyzer_run obs analyzer_init) =
  (map fst (day_changes None obs), map snd (day_changes None obs)).
Proof.
  destruct (analyzer_run_from obs analyzer_init None) as (Hd & He);
    [reflexivity|].
  unfold get_analysis. rewrite Hd, He. reflexivity.
Qed.

(** X10.  After one observation or more, [last_date] is set, it falls
    on the calendar date of the latest observation, and it is the last
    entry of [dates]. *)
Theorem analyzer_last_date_tracks (obs : list (Z * Z)) :
  obs <> [] ->
  let a := analyzer_run obs analyzer_init in
  exists ld,
    last_date a = Some ld /\
    date ld = date (fst (last obs (0, 0))) /\
    last (dates a) 0 = ld.
Proof.
  intros Hne. cbv zeta.
  pose proof (analyzer_run_last obs) as Hl. cbv zeta in Hl.
  destruct (last_date (analyzer_run obs analyzer_init)) as [ld|].
  - destruct Hl as ((ds & Hds) & earlier & o & -> & Hdate).
    exists ld. split; [reflexivity|].
    rewrite last_last, Hds, last_last. split; [exact Hdate | reflexivity].
  - destruct Hl as (-> & _). contradiction.
Qed.

Lemma analyzer_last_date_tracks_witness :
  exists ld,
    last_date (analyzer_run three_days analyzer_init) = Some ld /\
    date ld = date (fst (last three_days (0, 0))) /\
    last (dates (analyzer_run three_days analyzer_init)) 0 = ld.
Proof.
  apply (analyzer_last_date_tracks three_days). discriminate.
Defined.

(** X11.  The analyzer only appends: what it has recorded after some
    observations is still there, at the same places, after any further
    observations, and [dates] and [equity] grow by the same number of
    entries. *)
Theorem analyzer_append_only (obs more : list (Z * Z)) :
  exists ds es,
    length ds = length es /\
    dates (analyzer_run (obs ++ more) analyzer_init) =
      dates (analyzer_run obs analyzer_init) ++ ds /\
    equity (analyzer_run (obs ++ more) analyzer_init) =
      equity (analyzer_run obs analyzer_init) ++ es.
Proof.
  set (a0 := analyzer_run obs analyzer_init).
  assert (E : analyzer_run (obs ++ more) analyzer_init = analyzer_run more a0)
    by (unfold analyzer_run, a0; apply fold_left_app).
  destruct (analyzer_run_from more a0 (last_date a0)) as (Hd & He);
    [reflexivity|].
  exists (map fst (day_changes (last_date a0) more)),
         (map snd (day_changes (last_date a0) more)).
  rewrite E, Hd, He, !length_map. repeat split; reflexivity.
Qed.

(** X12.  Two consecutive samples never fall on the same calendar
    date, whatever the order of the bars. *)
Theorem analyzer_adjacent_dates_differ (obs : list (Z * Z)) (k : nat)
    (d1 d2 : Z) :
  let a := analyzer_run obs analyzer_init in
  nth_error (dates a) k = Some d1 ->
  nth_error (dates a) (S k) = Some d2 ->
  date d1 <> date d2.
Proof.
  cbv zeta. revert k d1 d2.
  induction obs as [|[dt v] obs IH] using rev_ind; intros k d1 d2.
  - cbn. destruct k; discriminate.
  - rewrite analyzer_run_snoc, analyzer_next_new_day. cbn [fst snd].
    pose proof (analyzer_run_last obs) as Hl. cbv zeta in Hl.
    set (a := analyzer_run obs analyzer_init) in *.
    destruct (new_day (last_date a) dt) eqn:En; [|apply IH].
    cbn [dates]. intros H1 H2.
    destruct (Nat.lt_ge_cases (S k) (length (dates a))) as [Hlt|Hge].
    + rewrite nth_error_app1 in H1, H2 by lia. eapply IH; eassumption.
    + destruct (last_date a) as [ld|].
      * destruct Hl as ((ds & Hds) & _).
        cbn in En. apply negb_true_iff, Z.eqb_neq in En.
        assert (Hk : S k = length (dates a)).
        { assert (S k < length (dates a ++ [dt]))%nat
            by (apply nth_error_Some; congruence).
          rewrite length_app in *. cbn in *. lia. }
        rewrite nth_error_app2 in H2 by lia.
        rewrite Hk, Nat.sub_diag in H2. cbn in H2. injection H2 as <-.
        rewrite nth_error_app1 in H1 by lia.
        rewrite Hds in H1, Hk. rewrite length_app in Hk. cbn in Hk.
        rewrite nth_error_app2 in H1 by lia.
        replace (k - length ds)%nat with 0%nat in H1 by lia.
        cbn in H1. injection H1 as <-. congruence.
      * destruct Hl as (_ & Hnil). rewrite Hnil in H1, H2. cbn in H2.
        destruct k; discriminate.
Qed.

Lemma analyzer_adjacent_dates_differ_witness :
  date 1651104000 <> date 1651190400.
Proof.
  apply (analyzer_adjacent_dates_differ three_days 0 1651104000 1651190400);
    reflexivity.
Defined.

(** X13.  The samples are a selection of the observations: the first
    observation is always sampled, every sample pairs a datetime with
    the value observed at it, and there are never more samples than
    observations. *)
Theorem analyzer_samples_are_observations (obs : list (Z * Z)) :
  let a := analyzer_run obs analyzer_init in
  hd_error (combine (dates a) (equity a)) = hd_error obs /\
  (length (dates a) <= length obs)%nat /\
  length (equity a) = length (dates a) /\
  forall o, In o (combine (dates a) (equity a)) -> In o obs.
Proof.
  cbv zeta.
  destruct (analyzer_run_from obs analyzer_init None) as (Hd & He);
    [reflexivity|].
  cbn in Hd, He. rewrite Hd, He, combine_fst_snd, !length_map.
  repeat apply conj.
  - destruct obs as [|o obs]; reflexivity.
  - apply day_changes_length.
  - reflexivity.
  - intros o. apply day_changes_incl.
Qed.

(** X14.  A second bar on the day just sampled changes nothing: after
    a call of [next] at [dt1], a call at any [dt2] of the same calendar
    date leaves the analyzer as it is, whatever the value. *)
Theorem analyzer_same_day_ignored (dt1 v1 dt2 v2 : Z) (a : analyzer) :
  date dt2 = date dt1 ->
  analyzer_next dt2 v2 (analyzer_next dt1 v1 a) = analyzer_next dt1 v1 a.
Proof.
  intros Hsame. rewrite (analyzer_next_new_day dt1).
  destruct (new_day (last_date a) dt1) eqn:En.
  - rewrite analyzer_next_new_day. cbn. rewrite Hsame, Z.eqb_refl. reflexivity.
  - rewrite analyzer_next_new_day.
    destruct (last_date a) as [ld|]; [|discriminate].
    cbn in *. apply negb_false_iff, Z.eqb_eq in En.
    rewrite Hsame, En, Z.eqb_refl. reflexivity.
Qed.

Lemma analyzer_same_day_ignored_witness :
  analyzer_next 1651118400 2 (analyzer_next 1651104000 1 analyzer_init) =
  analyzer_next 1651104000 1 analyzer_init.
Proof.
  apply (analyzer_same_day_ignored 1651104000 1 1651118400 2 analyzer_init).
  vm_compute. reflexivity.
Defined.

(** ** [ohlcv] and [run_backtest] *)

Lemma member_truthy_Some (k : string) (members : list (string * json)) :
  truthy (member k members) = true -> exists v, member k members = Some v.
Proof. destruct (member k members) as [v|]; [eauto | discriminate]. Qed.

Section FetchProperties.
Context `{Pandas}.
Variable requests_get : query -> reply.
Variables (symbol : string) (resolution start stop : Z).

(** Where an exception of the [try] block comes from. *)
Lemma ohlcv_try_raises (e : exn) :
  ohlcv_try requests_get symbol resolution start stop = Raise e ->
  e = RequestException \/ e = HTTPError \/ e = JSONDecodeError \/
  e = ValueError \/ e = AttributeError \/
  (exists k, e = KeyError k /\
             In k ["s"; "o"; "h"; "l"; "c"; "v"]%string) \/
  (exists j, to_datetime j = Raise e) \/
  (exists j, Series j = Raise e) \/
  (exists dt o h l c v, DataFrame dt o h l c v = Raise e).
Proof.
  unfold ohlcv_try.
  destruct (requests_get _) as [|status body]; [intros [= <-]; tauto|].
  unfold raise_for_status.
  destruct ((400 <=? status) && (status <? 600)); cbn;
    [intros [= <-]; tauto|].
  destruct body as [data|]; cbn; [|intros [= <-]; tauto].
  destruct data as [ | b | n | s | items | members]; cbn;
    try (intros [= <-]; tauto).
  destruct (truthy (member "t" members)) eqn:Et; cbn;
    [|intros [= <-]; tauto].
  destruct (member_truthy_Some _ _ Et) as (jt & Ejt).
  assert (Hkey : forall k,
    In k ["s"; "o"; "h"; "l"; "c"; "v"]%string ->
    exists k', KeyError k = KeyError k' /\
               In k' ["s"; "o"; "h"; "l"; "c"; "v"]%string)
    by (intros k Hk; exists k; split; [reflexivity | exact Hk]).
  destruct (member "s" members) as [s|]; cbn;
    [|intros [= <-]; do 5 right; left; apply Hkey; cbn; tauto].
  destruct (not_ok s); cbn; [intros [= <-]; tauto|].
  rewrite Ejt. cbn.
  destruct (to_datetime jt) as [dt|x] eqn:E1; cbn;
    [|intros [= <-]; do 6 right; left; eauto].
  destruct (member "o" members) as [jo|]; cbn;
    [|intros [= <-]; do 5 right; left; apply Hkey; cbn; tauto].
  destruct (Series jo) as [o|x] eqn:E2; cbn;
    [|intros [= <-]; do 7 right; left; eauto].
  destruct (member "h" members) as [jh|]; cbn;
    [|intros [= <-]; do 5 right; left; apply Hkey; cbn; tauto].
  destruct (Series jh) as [h|x] eqn:E3; cbn;
    [|intros [= <-]; do 7 right; left; eauto].
  destruct (member "l" members) as [jl|]; cbn;
    [|intros [= <-]; do 5 right; left; apply Hkey; cbn; tauto].
  destruct (Series jl) as [l|x] eqn:E4; cbn;
    [|intros [= <-]; do 7 right; left; eauto].
  destruct (member "c" members) as [jc|]; cbn;
    [|intros [= <-]; do 5 right; left; apply Hkey; cbn; tauto].
  destruct (Series jc) as [c|x] eqn:E5; cbn;
    [|intros [= <-]; do 7 right; left; eauto].
  destruct (member "v" members) as [jv|]; cbn;
    [|intros [= <-]; do 5 right; left; apply Hkey; cbn; tauto].
  destruct (Series jv) as [v|x] eqn:E6; cbn;
    [|intros [= <-]; do 7 right; left; eauto].
  destruct (DataFrame dt o h l c v) as [df|x] eqn:E7; cbn;
    [discriminate|].
  intros [= <-]. do 8 right. eauto 10.
Qed.

(** X15.  An exception that leaves [ohlcv] is never a request error
    and never a [ValueError].  It is the [AttributeError] of
    [data.get], a [KeyError] for one of ['s'], ['o'], ['h'], ['l'],
    ['c'] and ['v'], or an exception of another class that one of the
    three pandas calls raised. *)
Theorem ohlcv_escaping_exceptions (e : exn) :
  ohlcv requests_get symbol resolution start stop = Raise e ->
  is_RequestException e = false /\ is_ValueError e = false /\
  (e = AttributeError \/
   (exists k, e = KeyError k /\
              In k ["s"; "o"; "h"; "l"; "c"; "v"]%string) \/
   (exists j, to_datetime j = Raise e) \/
   (exists j, Series j = Raise e) \/
   (exists dt o h l c v, DataFrame dt o h l c v = Raise e)).
Proof.
  unfold ohlcv.
  destruct (ohlcv_try requests_get symbol resolution start stop)
    as [df|x] eqn:Etry; [discriminate|].
  destruct (is_RequestException x) eqn:Ere; [discriminate|].
  destruct (is_ValueError x) eqn:Eve; [discriminate|].
  intros [= <-]. split; [exact Ere|]. split; [exact Eve|].
  destruct (ohlcv_try_raises x Etry)
    as [->|[->|[->|[->|[->|[Hk|[Hp|[Hp|Hp]]]]]]]];
    try discriminate; auto.
Qed.

(** X16.  A reply with a good status whose JSON object has a truthy
    ['t'] and no ['s'] makes [ohlcv] raise [KeyError] for ['s'],
    whatever else the object holds. *)
Theorem ohlcv_missing_s (status : Z) (members : list (string * json)) :
  requests_get (ohlc_url symbol resolution start stop) = Reply status (Some (JObj members)) ->
  (400 <=? status) && (status <? 600) = false ->
  truthy (member "t" members) = true ->
  member "s" members = None ->
  ohlcv requests_get symbol resolution start stop = Raise (KeyError "s").
Proof.
  intros Hr Hs Ht Hms. unfold ohlc_url in Hr. unfold ohlcv, ohlcv_try.
  rewrite Hr. unfold raise_for_status. rewrite Hs. cbn.
  rewrite Ht. cbn. rewrite Hms. reflexivity.
Qed.

(** X17.  A reply with a good status whose body is JSON but not an
    object (null, a boolean, a number, a string or an array) makes
    [ohlcv] raise [AttributeError]: [data.get] does not exist. *)
Theorem ohlcv_body_not_object (status : Z) (data : json) :
  requests_get (ohlc_url symbol resolution start stop) = Reply status (Some data) ->
  (400 <=? status) && (status <? 600) = false ->
  (forall members, data <> JObj members) ->
  ohlcv requests_get symbol resolution start stop = Raise AttributeError.
Proof.
  intros Hr Hs Hno. unfold ohlc_url in Hr. unfold ohlcv, ohlcv_try.
  rewrite Hr. unfold raise_for_status. rewrite Hs. cbn.
  destruct data; try reflexivity.
  exfalso. eapply Hno. reflexivity.
Qed.

(** X18.  When ['t'] is missing or falsy (null, empty, zero) in the
    JSON object of a reply with a good status, [ohlcv] does not look
    at ['s'] at all: it prints the data error and returns an empty
    frame, whether ['s'] is ['ok'], something else, or missing. *)
Theorem ohlcv_falsy_t (status : Z) (members : list (string * json)) :
  requests_get (ohlc_url symbol resolution start stop) = Reply status (Some (JObj members)) ->
  (400 <=? status) && (status <? 600) = false ->
  truthy (member "t" members) = false ->
  ohlcv requests_get symbol resolution start stop =
    Ok (empty_frame, [DataError ValueError]).
Proof.
  intros Hr Hs Ht. unfold ohlc_url in Hr. unfold ohlcv, ohlcv_try.
  rewrite Hr. unfold raise_for_status. rewrite Hs. cbn.
  rewrite Ht. reflexivity.
Qed.

(** X19.  An error status decides alone: with a status from 400 to 599
    [ohlcv] prints the fetch error for [HTTPError] and returns an empty
    frame without reading the body, be it a well-formed payload. *)
Theorem ohlcv_error_status (status : Z) (body : option json) :
  requests_get (ohlc_url symbol resolution start stop) = Reply status body ->
  400 <= status < 600 ->
  ohlcv requests_get symbol resolution start stop =
    Ok (empty_frame, [ErrorFetchingData HTTPError]).
Proof.
  intros Hr Hs. unfold ohlc_url in Hr. unfold ohlcv, ohlcv_try.
  rewrite Hr. unfold raise_for_status.
  replace ((400 <=? status) && (status <? 600)) with true; [reflexivity|].
  symmetry. apply andb_true_iff. split; [apply Z.leb_le | apply Z.ltb_lt]; lia.
Qed.

(** X20.  [ohlcv] prints exactly when it falls back: a frame returned
    without a printed line is the frame the [try] block built, and a
    printed line comes alone and with an empty frame. *)
Theorem ohlcv_prints_iff_fallback (df : frame) (out : list printed) :
  ohlcv requests_get symbol resolution start stop = Ok (df, out) ->
  (out = [] /\ ohlcv_try requests_get symbol resolution start stop = Ok df) \/
  (df = empty_frame /\
   exists e, ohlcv_try requests_get symbol resolution start stop = Raise e /\
             (out = [ErrorFetchingData e] \/ out = [DataError e])).
Proof.
  unfold ohlcv.
  destruct (ohlcv_try requests_get symbol resolution start stop) as [d|e].
  - intros [= <- <-]. left. split; reflexivity.
  - destruct (is_RequestException e); [|destruct (is_ValueError e)];
      [intros [= <- <-] | intros [= <- <-] | discriminate];
      right; (split; [reflexivity|]); exists e; auto.
Qed.

End FetchProperties.

Lemma ohlcv_escaping_exceptions_witness :
  is_RequestException (KeyError "s") = false /\
  is_ValueError (KeyError "s") = false /\
  (KeyError "s" = AttributeError \/
   (exists k, KeyError "s" = KeyError k /\
              In k ["s"; "o"; "h"; "l"; "c"; "v"]%string) \/
   (exists j, to_datetime j = Raise (KeyError "s")) \/
   (exists j, Series j = Raise (KeyError "s")) \/
   (exists dt o h l c v, DataFrame dt o h l c v = Raise (KeyError "s"))).
Proof.
  apply (ohlcv_escaping_exceptions
           (fun _ => Reply 200 (Some (JObj [("t"%string, JArr [JNum 1])])))
           "btcusdt" 240 0 1 (KeyError "s")).
  reflexivity.
Defined.

Lemma ohlcv_missing_s_witness :
  ohlcv (fun _ => Reply 200 (Some (JObj [("t"%string, JStr "soon");
                                         ("c"%string, JArr [])])))
        "btcusdt" 240 0 1
  = Raise (KeyError "s").
Proof.
  apply (ohlcv_missing_s
           (fun _ => Reply 200 (Some (JObj [("t"%string, JStr "soon");
                                            ("c"%string, JArr [])])))
           "btcusdt" 240 0 1 200
           [("t"%string, JStr "soon"); ("c"%string, JArr [])]);
    reflexivity.
Defined.

Lemma ohlcv_body_not_object_witness :
  ohlcv (fun _ => Reply 200 (Some (JArr [JNum 1]))) "btcusdt" 240 0 1
  = Raise AttributeError.
Proof.
  apply (ohlcv_body_not_object (fun _ => Reply 200 (Some (JArr [JNum 1])))
           "btcusdt" 240 0 1 200 (JArr [JNum 1]));
    [reflexivity | reflexivity | discriminate].
Defined.

Lemma ohlcv_falsy_t_witness :
  ohlcv (fun _ => Reply 200 (Some (JObj [("t"%string, JArr [])])))
        "btcusdt" 240 0 1
  = Ok (empty_frame, [DataError ValueError]).
Proof.
  apply (ohlcv_falsy_t
           (fun _ => Reply 200 (Some (JObj [("t"%string, JArr [])])))
           "btcusdt" 240 0 1 200 [("t"%string, JArr [])]);
    reflexivity.
Defined.

Lemma ohlcv_error_status_witness :
  ohlcv (fun _ => Reply 503 (Some (JObj [("s"%string, JStr "ok")])))
        "btcusdt" 240 0 1
  = Ok (empty_frame, [ErrorFetchingData HTTPError]).
Proof.
  apply (ohlcv_error_status
           (fun _ => Reply 503 (Some (JObj [("s"%string, JStr "ok")])))
           "btcusdt" 240 0 1 503 (Some (JObj [("s"%string, JStr "ok")])));
    [reflexivity | lia].
Defined.

Lemma ohlcv_prints_iff_fallback_witness :
  ([DataError ValueError] = [] /\
   ohlcv_try no_data "btcusdt" 240 0 1 = Ok empty_frame) \/
  (empty_frame = empty_frame /\
   exists e, ohlcv_try no_data "btcusdt" 240 0 1 = Raise e /\
             ([DataError ValueError] = [ErrorFetchingData e] \/
              [DataError ValueError] = [DataError e])).
Proof.
  apply (ohlcv_prints_iff_fallback no_data "btcusdt" 240 0 1 empty_frame
           [DataError ValueError]).
  reflexivity.
Defined.

(** ** [FiveBarStrategy.notify_order] *)

(** [notify_order] prints one line, stamped with the current bar's
    datetime, for a completed order, and nothing for any other status:
    a partial fill, a margin call and a rejection leave no trace. *)
Remark notify_order_completed_only (now : Z) (o : order_info) :
  (status o = Completed ->
   exists n, notify_order now o = [(now, n)]) /\
  (status o <> Completed -> notify_order now o = []).
Proof.
  unfold notify_order, log. destruct (status o), (kind o); split;
    intros Hs; try discriminate; try contradiction; eauto.
Qed.
